(** * cli-agent-manager: delegation protocol, inbox endpoint and flow daemon

    A shallow embedding of the request handlers of
    [src/cli_agent_manager/api/main.py] and of the tool wrappers of
    [src/cli_agent_manager/agent_tools/http_server.py] and
    [src/cli_agent_manager/clients/agent_communication.py].

    The handlers are effectful Python: they call the terminal service, the
    status monitor, the inbox store and the HTTP client, read and write
    [os.environ], raise and catch exceptions.  They are embedded in a small
    monad [M] that threads the process state (the log of external calls made
    so far and the process environment) and returns either a value or a
    raised exception.  The external collaborators are not part of the
    handlers: they are taken as a record of oracles whose answers may depend
    on the whole history of calls. *)

From Stdlib Require Import ZArith Lia.
From stdpp Require Import strings gmap list pretty.

Local Open Scope string_scope.
Local Open Scope list_scope.
Local Open Scope Z_scope.

(** ** Python values *)

(** The exceptions the handlers raise or catch.  Every constructor is a
    subclass of Python's [Exception]; [RuntimeError] stands for any other
    one an external call may raise. *)
Inductive exn : Type :=
| TimeoutError (msg : string)
| ValueError (msg : string)
| KeyError (key : string)
| AttributeError (msg : string)
| HTTPError (msg : string)
| HTTPException (status_code : Z) (detail : string)
| RuntimeError (msg : string).

(** [str(e)] *)
Definition str (e : exn) : string :=
  match e with
  | TimeoutError msg => msg
  | ValueError msg => msg
  | KeyError key => "'" +:+ key +:+ "'"
  | AttributeError msg => msg
  | HTTPError msg => msg
  | HTTPException status_code detail => pretty status_code +:+ ": " +:+ detail
  | RuntimeError msg => msg
  end.

Inductive result (A : Type) : Type :=
| Ok (a : A)
| Raise (e : exn).
Arguments Ok {A} a.
Arguments Raise {A} e.

(** Truthiness of a [str] and of an [Optional[str]]. *)
Definition truthy (s : string) : bool :=
  match s with
  | EmptyString => false
  | String _ _ => true
  end.

Definition truthy_opt (o : option string) : bool :=
  match o with
  | Some s => truthy s
  | None => false
  end.

(** [a or b] on optional strings. *)
Definition py_or (a b : option string) : option string :=
  if truthy_opt a then a else b.

(** [needle in hay] on strings. *)
Fixpoint startswith (hay needle : string) {struct needle} : bool :=
  match needle, hay with
  | EmptyString, _ => true
  | String c needle', String d hay' =>
      if Ascii.eqb c d then startswith hay' needle' else false
  | String _ _, EmptyString => false
  end.

Fixpoint contains (needle hay : string) : bool :=
  startswith hay needle ||
  match hay with
  | EmptyString => false
  | String _ hay' => contains needle hay'
  end.

(** [s.lower()], on the ASCII letters. *)
Definition ascii_lower (c : Ascii.ascii) : Ascii.ascii :=
  let n := Ascii.nat_of_ascii c in
  if (65 <=? n)%nat && (n <=? 90)%nat then Ascii.ascii_of_nat (n + 32) else c.

Fixpoint lower (s : string) : string :=
  match s with
  | EmptyString => EmptyString
  | String c s' => String (ascii_lower c) (lower s')
  end.

(** Modelled from the spec: the enumeration [TerminalStatus] of
    [models/terminal.py], which is not among the sources; section 4.1 of the
    specification lists its five members. *)
Inductive TerminalStatus : Type :=
| INITIALIZING | IDLE | BUSY | COMPLETED | ERROR.

(** Modelled from the spec: the enumeration [MessageStatus] of
    [models/inbox.py], which is not among the sources; section 3 of the
    specification and the endpoint's own error text list its three values. *)
Inductive MessageStatus : Type :=
| PENDING | DELIVERED | FAILED.

(** [MessageStatus(value)]: the member with that value, or [ValueError]. *)
Definition MessageStatus_of_value (value : string) : result MessageStatus :=
  if String.eqb value "pending" then Ok PENDING
  else if String.eqb value "delivered" then Ok DELIVERED
  else if String.eqb value "failed" then Ok FAILED
  else Raise (ValueError ("'" +:+ value +:+ "' is not a valid MessageStatus")).

Record Terminal : Type := mkTerminal {
  id : string;
  terminal_provider : string;
  terminal_session : string;
  terminal_profile : string
}.

(** The id of an inbox message as the store hands it out.  The message
    model ([models/inbox.py]) is not among the sources, and the two
    response models of [api/models.py] that carry the id disagree on its
    type: [InboxMessageResponse.id] is an [int],
    [SendMessageResponse.message_id] an [Optional[str]].  Both kinds of
    value are therefore kept apart. *)
Inductive MessageId : Type :=
| IntId (n : Z)
| StrId (s : string).

Record InboxMessage : Type := mkInboxMessage {
  msg_id : MessageId;
  msg_sender_id : string;
  msg_receiver_id : string;
  msg_message : string;
  msg_status : MessageStatus;
  msg_created_at : string   (* [created_at.isoformat()] *)
}.

Record Flow : Type := mkFlow { name : string }.

(** A [requests.Response]: its status code and what [.json()] gives. *)
Record Response : Type := mkResponse {
  status_code : Z;
  json : result (gmap string string)
}.

(** ** Request and response models ([api/models.py]) *)

Module HandoffRequest.
Record t : Type := mk {
  agent_profile : string;
  message : string;
  timeout : Z
}.
End HandoffRequest.

Module HandoffResponse.
Record t : Type := mk {
  success : bool;
  message : string;
  output : option string;
  terminal_id : option string
}.
End HandoffResponse.

Module AssignRequest.
Record t : Type := mk {
  agent_profile : string;
  message : string
}.
End AssignRequest.

Module AssignResponse.
Record t : Type := mk {
  success : bool;
  terminal_id : option string;
  message : string
}.
End AssignResponse.

Module SendMessageRequest.
Record t : Type := mk {
  receiver_id : string;
  message : string;
  sender_id : option string
}.
End SendMessageRequest.

Module SendMessageResponse.
Record t : Type := mk {
  success : bool;
  message_id : option string;
  sender_id : option string;
  receiver_id : option string;
  created_at : option string;
  error : option string
}.
End SendMessageResponse.

Module InboxMessagesResponse.
Record t : Type := mk {
  messages : list InboxMessage;
  total : nat;
  receiver_id : string
}.
End InboxMessagesResponse.

(** ** External calls *)

Inductive event : Type :=
| EvGetTerminalMetadata (terminal_id : string)
| EvGenerateSessionName
| EvGenerateTerminalId
| EvCreateTerminal (provider agent_profile session_name : string) (new_session : bool)
| EvWaitFor (timeout : Z)
| EvWaitUntilTerminalStatus (terminal_id : string) (target : TerminalStatus)
                            (timeout : Z) (polling_interval : option Z)
| EvSleep (seconds : Z)
| EvSendInput (terminal_id message : string)
| EvRequestsGet (url : string) (params : list (string * string)) (timeout : Z)
| EvRequestsPost (url : string) (body : list (string * string)) (timeout : Z)
| EvPostSendMessage (receiver_id message : string) (sender_id : option string)
| EvSetEnviron (key value : string)
| EvDelEnviron (key : string)
| EvCreateInboxMessage (sender_id receiver_id message : string)
| EvCheckAndSendPendingMessages (receiver_id : string)
| EvGetInboxMessages (terminal_id : string) (status : option MessageStatus) (limit : Z)
| EvGetFlowsToRun
| EvExecuteFlow (flow_name : string)
| EvSessionExists (session_name : string)
| EvKillSession (session_name : string).

(** The collaborators of the handlers.  Each oracle receives the history of
    external calls made before it, so that the same call may be answered
    differently at different times. *)
Record services : Type := mkServices {
  DEFAULT_PROVIDER : string;
  get_terminal_metadata : list event -> string -> result (option (gmap string string));
  generate_session_name : list event -> string;
  generate_terminal_id : list event -> string;
  create_terminal : list event -> string -> string -> string -> bool -> result Terminal;
  (* seconds a job submitted to the thread pool takes *)
  job_duration : list event -> Z;
  wait_until_terminal_status :
    list event -> string -> TerminalStatus -> Z -> option Z -> result bool;
  send_input : list event -> string -> string -> result bool;
  requests_get : list event -> string -> list (string * string) -> Z -> result Response;
  requests_post : list event -> string -> list (string * string) -> Z -> result Response;
  (* the client's POST /agents/send-message, up to the parsed reply *)
  post_send_message : list event -> SendMessageRequest.t -> result SendMessageResponse.t;
  (* [time.time() - start_time] printed with two decimals *)
  execution_time : list event -> string;
  create_inbox_message : list event -> string -> string -> string -> result InboxMessage;
  check_and_send_pending_messages : list event -> string -> result unit;
  get_inbox_messages :
    list event -> string -> option MessageStatus -> Z -> result (list InboxMessage);
  get_flows_to_run : list event -> result (list Flow);
  execute_flow : list event -> string -> result bool;
  session_exists : list event -> string -> result bool;
  kill_session : list event -> string -> result unit
}.

(** ** The monad of handlers *)

Record state : Type := mkState {
  trace : list event;
  environ : gmap string string
}.

Definition M (A : Type) : Type := state -> result A * state.

Definition ret {A} (a : A) : M A := fun s => (Ok a, s).

Definition raise {A} (e : exn) : M A := fun s => (Raise e, s).

Definition bind {A B} (m : M A) (k : A -> M B) : M B :=
  fun s =>
    match m s with
    | (Ok a, s') => k a s'
    | (Raise e, s') => (Raise e, s')
    end.

(** [try: m  except Exception as e: h e] *)
Definition try_except {A} (m : M A) (h : exn -> M A) : M A :=
  fun s =>
    match m s with
    | (Ok a, s') => (Ok a, s')
    | (Raise e, s') => h e s'
    end.

(** [try: m  finally: f] *)
Definition try_finally {A} (m : M A) (f : M unit) : M A :=
  fun s =>
    match m s with
    | (r, s') =>
        match f s' with
        | (Ok _, s'') => (r, s'')
        | (Raise e, s'') => (Raise e, s'')
        end
    end.

Notation "'let!' x ':=' m 'in' k" := (bind m (fun x => k))
  (at level 10, x pattern, m at level 100, k at level 200).

(** An external call: the oracle answers from the history, the call is
    logged. *)
Definition call {A} (ev : event) (oracle : list event -> result A) : M A :=
  fun s => (oracle (trace s), mkState (trace s ++ [ev]) (environ s)).

Definition observe {A} (oracle : list event -> A) : M A :=
  fun s => (Ok (oracle (trace s)), s).

(** [os.environ.get(key)] / [os.getenv(key)] *)
Definition os_getenv (key : string) : M (option string) :=
  fun s => (Ok (environ s !! key), s).

(** [os.environ[key] = value]: a write to the process environment, logged
    like an external call because every thread of the process sees it. *)
Definition os_setenv (key value : string) : M unit :=
  fun s => (Ok tt, mkState (trace s ++ [EvSetEnviron key value])
                           (<[key := value]> (environ s))).

(** [del os.environ[key]] *)
Definition os_delenv (key : string) : M unit :=
  fun s =>
    match environ s !! key with
    | Some _ => (Ok tt, mkState (trace s ++ [EvDelEnviron key]) (delete key (environ s)))
    | None => (Raise (KeyError key), s)
    end.

(** [key in os.environ] *)
Definition os_environ_contains (key : string) : M bool :=
  fun s => (Ok (bool_decide (is_Some (environ s !! key))), s).

(** [d[key]] on a dict *)
Definition getitem (d : gmap string string) (key : string) : M string :=
  match d !! key with
  | Some v => ret v
  | None => raise (KeyError key)
  end.

(** [await asyncio.sleep(seconds)] *)
Definition asyncio_sleep (seconds : Z) : M unit :=
  call (EvSleep seconds) (fun _ => Ok tt).

(** [response.raise_for_status()] *)
Definition raise_for_status (response : Response) : M unit :=
  if (400 <=? status_code response) && (status_code response <? 600)
  then raise (HTTPError (pretty (status_code response)))
  else ret tt.

(** [response.json()] *)
Definition response_json (response : Response) : M (gmap string string) :=
  match json response with
  | Ok d => ret d
  | Raise e => raise e
  end.

Definition SESSION_PREFIX : string := "tron-".

Module CreateSessionResponse.
Record t : Type := mk {
  status : string;
  session_name : string;
  terminal_id : string;
  provider : string;
  agent_profile : string;
  message : string
}.
End CreateSessionResponse.

(** ** [api/main.py] *)

Definition API_BASE_URL : string := "http://localhost:9889".

Section Handlers.

Variable svc : services.

(** [asyncio.wait_for(asyncio.wrap_future(executor.submit(job)), timeout)]
    inside [with ThreadPoolExecutor() as executor]: the job runs on a worker
    thread; when it takes longer than [timeout] the awaiting handler gets
    [asyncio.TimeoutError] instead of the job's outcome.  The job is not
    cancelled: leaving the [with] block joins the worker, so what the job
    did has happened by the time the handler goes on. *)
Definition wait_for {A} (timeout : Z) (job : M A) : M A :=
  fun s =>
    let s0 := mkState (trace s ++ [EvWaitFor timeout]) (environ s) in
    match job s0 with
    | (r, s') =>
        if job_duration svc (trace s) <=? timeout then (r, s')
        else (Raise (TimeoutError ""), s')
    end.

Definition _create_terminal_direct (agent_profile : string) : M (string * string) :=
  let provider := DEFAULT_PROVIDER svc in
  let! current_terminal_id := os_getenv "TRON_TERMINAL_ID" in
  match current_terminal_id with
  | Some (String c rest as current_terminal_id) =>
      let! terminal_metadata :=
        call (EvGetTerminalMetadata current_terminal_id)
             (fun h => get_terminal_metadata svc h current_terminal_id) in
      match terminal_metadata with
      | None =>
          raise (ValueError ("Terminal metadata not found for " +:+ current_terminal_id))
      | Some terminal_metadata =>
          if bool_decide (terminal_metadata = ∅) then
            raise (ValueError ("Terminal metadata not found for " +:+ current_terminal_id))
          else
            let! provider := getitem terminal_metadata "provider" in
            let! session_name := getitem terminal_metadata "tmux_session" in
            let! terminal :=
              call (EvCreateTerminal provider agent_profile session_name false)
                   (fun h => create_terminal svc h provider agent_profile session_name false) in
            ret (id terminal, provider)
      end
  | _ =>
      let! session_name :=
        call EvGenerateSessionName (fun h => Ok (generate_session_name svc h)) in
      let! terminal :=
        call (EvCreateTerminal provider agent_profile session_name true)
             (fun h => create_terminal svc h provider agent_profile session_name true) in
      ret (id terminal, provider)
  end.

Definition _send_direct_input_direct (terminal_id message : string) : M unit :=
  let! success :=
    call (EvSendInput terminal_id message)
         (fun h => send_input svc h terminal_id message) in
  if negb success then
    raise (ValueError ("Failed to send input to terminal " +:+ terminal_id))
  else ret tt.

(** [wait_until_terminal_status] of [utils/terminal.py] is an external
    collaborator here; [polling_interval = None] is a call that leaves the
    parameter to its default. *)
Definition wait_until (terminal_id : string) (target : TerminalStatus)
    (timeout : Z) (polling_interval : option Z) : M bool :=
  call (EvWaitUntilTerminalStatus terminal_id target timeout polling_interval)
       (fun h => wait_until_terminal_status svc h terminal_id target timeout polling_interval).

(** The part of [handoff_agent] that runs once [terminal_id] and [provider]
    are bound. *)
Definition handoff_after_create (request : HandoffRequest.t)
    (terminal_id provider : string) : M HandoffResponse.t :=
  let! idle := wait_until terminal_id IDLE 30 None in
  if negb idle then
    ret (HandoffResponse.mk false
           ("Terminal " +:+ terminal_id +:+ " did not reach IDLE status within 30 seconds")
           None (Some terminal_id))
  else
    let! _ := asyncio_sleep 2 in
    let! _ := _send_direct_input_direct terminal_id (HandoffRequest.message request) in
    let! completed :=
      wait_until terminal_id COMPLETED (HandoffRequest.timeout request) (Some 1) in
    if negb completed then
      ret (HandoffResponse.mk false
             ("Handoff timed out after " +:+ pretty (HandoffRequest.timeout request)
              +:+ " seconds")
             None (Some terminal_id))
    else
      let! output :=
        try_except
          (let url := API_BASE_URL +:+ "/terminals/" +:+ terminal_id +:+ "/output" in
           let! response :=
             call (EvRequestsGet url [("mode", "last")] 10)
                  (fun h => requests_get svc h url [("mode", "last")] 10) in
           let! _ := raise_for_status response in
           let! output_data := response_json response in
           getitem output_data "output")
          (fun e => ret ("Failed to retrieve output: " +:+ str e)) in
      let! _ :=
        try_except
          (let url := API_BASE_URL +:+ "/terminals/" +:+ terminal_id +:+ "/exit" in
           let! response :=
             call (EvRequestsPost url [] 5) (fun h => requests_post svc h url [] 5) in
           raise_for_status response)
          (fun e => ret tt) in
      let! elapsed := observe (execution_time svc) in
      ret (HandoffResponse.mk true
             ("Successfully handed off to " +:+ HandoffRequest.agent_profile request
              +:+ " (" +:+ provider +:+ ") in " +:+ elapsed +:+ "s")
             (Some output) (Some terminal_id)).

(** [handoff_agent].  The local [terminal_id] is [None] until the
    assignment from [wait_for] and the created id from then on; the outer
    [except Exception] reads it, so it is written once for each of the two
    values the local can hold when an exception arrives. *)
Definition handoff_agent (request : HandoffRequest.t) : M HandoffResponse.t :=
  try_except
    (let! created :=
       try_except
         (let! r := wait_for 30 (_create_terminal_direct (HandoffRequest.agent_profile request)) in
          ret (inr r))
         (fun e =>
            match e with
            | TimeoutError _ =>
                ret (inl (HandoffResponse.mk false
                            "Terminal creation timed out after 30 seconds" None None))
            | _ =>
                ret (inl (HandoffResponse.mk false
                            ("Failed to create terminal: " +:+ str e) None None))
            end) in
     match created with
     | inl response => ret response
     | inr (terminal_id, provider) =>
         try_except
           (handoff_after_create request terminal_id provider)
           (fun e =>
              ret (HandoffResponse.mk false ("Handoff failed: " +:+ str e)
                     None (Some terminal_id)))
     end)
    (fun e =>
       ret (HandoffResponse.mk false ("Handoff failed: " +:+ str e) None None)).


(** [assign_agent].  The inner [try] catches [asyncio.TimeoutError] only;
    any other exception of the creation goes to the outer handler. *)
Definition assign_agent (request : AssignRequest.t) : M AssignResponse.t :=
  try_except
    (let! created :=
       try_except
         (let! r := wait_for 30 (_create_terminal_direct (AssignRequest.agent_profile request)) in
          ret (inr r))
         (fun e =>
            match e with
            | TimeoutError _ =>
                ret (inl (AssignResponse.mk false None
                            "Assignment timed out after 30 seconds during terminal creation"))
            | _ => raise e
            end) in
     match created with
     | inl response => ret response
     | inr (terminal_id, provider) =>
         let! _ := _send_direct_input_direct terminal_id (AssignRequest.message request) in
         ret (AssignResponse.mk true (Some terminal_id)
                ("Task assigned to " +:+ AssignRequest.agent_profile request
                 +:+ " (terminal: " +:+ terminal_id +:+ ")"))
     end)
    (fun e =>
       ret (AssignResponse.mk false None ("Assignment failed: " +:+ str e))).

(** The sender of a message: [request.sender_id or os.getenv(...)], and
    ["unknown"] when that is falsy. *)
Definition resolve_sender (sender_id env_id : option string) : string :=
  match py_or sender_id env_id with
  | Some (String _ _ as sender_id) => sender_id
  | _ => "unknown"
  end.

(** [SendMessageResponse(success=..., message_id=..., ...)].  The model
    declares [message_id: Optional[str]]: pydantic takes a string or [None]
    and refuses an integer with a [ValidationError], which is a
    [ValueError] (the text kept here is the first line of pydantic's).  The
    constraints of [TerminalId] are declared outside the sources and are
    taken as met. *)
Definition new_SendMessageResponse (success : bool) (message_id : option MessageId)
    (sender_id receiver_id created_at error : option string)
    : M SendMessageResponse.t :=
  match message_id with
  | Some (IntId _) => raise (ValueError "1 validation error for SendMessageResponse")
  | Some (StrId id) =>
      ret (SendMessageResponse.mk success (Some id) sender_id receiver_id created_at error)
  | None =>
      ret (SendMessageResponse.mk success None sender_id receiver_id created_at error)
  end.

Definition send_message_to_agent (request : SendMessageRequest.t)
    : M SendMessageResponse.t :=
  try_except
    (let! env_id := os_getenv "TRON_TERMINAL_ID" in
     let sender_id := resolve_sender (SendMessageRequest.sender_id request) env_id in
     let receiver_id := SendMessageRequest.receiver_id request in
     let message := SendMessageRequest.message request in
     let! inbox_msg :=
       call (EvCreateInboxMessage sender_id receiver_id message)
            (fun h => create_inbox_message svc h sender_id receiver_id message) in
     let! _ :=
       call (EvCheckAndSendPendingMessages receiver_id)
            (fun h => check_and_send_pending_messages svc h receiver_id) in
     new_SendMessageResponse true
       (Some (msg_id inbox_msg))
       (Some (msg_sender_id inbox_msg))
       (Some (msg_receiver_id inbox_msg))
       (Some (msg_created_at inbox_msg))
       None)
    (fun e =>
       match e with
       | ValueError _ =>
           new_SendMessageResponse false None None
             (Some (SendMessageRequest.receiver_id request)) None
             (Some (str e))
       | _ =>
           new_SendMessageResponse false None None
             (Some (SendMessageRequest.receiver_id request)) None
             (Some ("Failed to send message: " +:+ str e))
       end).

(** ** Sessions *)

(** The best-effort teardown of both handlers of
    [_initialize_session_background]. *)
Definition cleanup_session (session_name : string) : M unit :=
  try_except
    (let! present :=
       call (EvSessionExists session_name) (fun h => session_exists svc h session_name) in
     if present then
       call (EvKillSession session_name) (fun h => kill_session svc h session_name)
     else ret tt)
    (fun cleanup_error => ret tt).

Definition _initialize_session_background
    (terminal_id session_name provider agent_profile : string) : M unit :=
  try_except
    (let create_terminal_sync :=
       call (EvCreateTerminal provider agent_profile session_name true)
            (fun h => create_terminal svc h provider agent_profile session_name true) in
     try_except
       (let! result := wait_for 60 create_terminal_sync in ret tt)
       (fun e =>
          match e with
          | TimeoutError _ => cleanup_session session_name
          | _ => raise e
          end))
    (fun e => cleanup_session session_name).

(** [create_session] returns its response together with the task it hands
    to [asyncio.create_task]: the task runs after the handler has returned. *)
Definition create_session (provider agent_profile : string)
    (session_name : option string) : M (CreateSessionResponse.t * M unit) :=
  try_except
    (let! terminal_id :=
       call EvGenerateTerminalId (fun h => Ok (generate_terminal_id svc h)) in
     let! session_name :=
       match session_name with
       | Some (String _ _ as session_name) => ret session_name
       | _ => call EvGenerateSessionName (fun h => Ok (generate_session_name svc h))
       end in
     let session_name :=
       if startswith session_name SESSION_PREFIX then session_name
       else SESSION_PREFIX +:+ session_name in
     let response :=
       CreateSessionResponse.mk "initializing" session_name terminal_id provider agent_profile
         "Session creation started. Terminal is initializing in the background." in
     ret (response,
          _initialize_session_background terminal_id session_name provider agent_profile))
    (fun e =>
       raise (HTTPException 500 ("Failed to start session creation: " +:+ str e))).

(** The request and then the task it spawned. *)
Definition create_session_and_background (provider agent_profile : string)
    (session_name : option string) : M CreateSessionResponse.t :=
  let! (response, task) := create_session provider agent_profile session_name in
  let! _ := task in
  ret response.

(** ** Inbox listing *)

(** Inside [get_inbox_messages_endpoint] the name [status] is the query
    parameter, an [Optional[str]], not the module [fastapi.status] that the
    file imports: the parameter shadows it.  [status.ATTR] is therefore an
    attribute lookup on a [str] or on [None]. *)
Definition status_attribute (status : option string) (attr : string) : M Z :=
  match status with
  | Some _ =>
      raise (AttributeError ("'str' object has no attribute '" +:+ attr +:+ "'"))
  | None =>
      raise (AttributeError ("'NoneType' object has no attribute '" +:+ attr +:+ "'"))
  end.

Definition get_inbox_messages_endpoint (terminal_id : string)
    (status : option string) (limit : Z) : M InboxMessagesResponse.t :=
  try_except
    (let! message_status :=
       match status with
       | Some (String _ _ as status_str) =>
           if negb (String.eqb (lower status_str) "all") then
             try_except
               (match MessageStatus_of_value (lower status_str) with
                | Ok v => ret (Some v)
                | Raise e => raise e
                end)
               (fun e =>
                  match e with
                  | ValueError _ =>
                      let! code := status_attribute status "HTTP_400_BAD_REQUEST" in
                      raise (HTTPException code
                               ("Invalid status '" +:+ status_str
                                +:+ "'. Must be one of: pending, delivered, failed, all"))
                  | _ => raise e
                  end)
           else ret None
       | _ => ret None
       end in
     let limit := Z.min (Z.max 1 limit) 100 in
     let! messages :=
       call (EvGetInboxMessages terminal_id message_status limit)
            (fun h => get_inbox_messages svc h terminal_id message_status limit) in
     let message_responses := messages in
     ret (InboxMessagesResponse.mk message_responses (length message_responses) terminal_id))
    (fun e =>
       match e with
       | ValueError _ =>
           let! code := status_attribute status "HTTP_404_NOT_FOUND" in
           raise (HTTPException code (str e))
       | _ =>
           let! code := status_attribute status "HTTP_500_INTERNAL_SERVER_ERROR" in
           raise (HTTPException code ("Failed to get inbox messages: " +:+ str e))
       end).

(** ** Flow daemon *)

Fixpoint for_each {A} (l : list A) (body : A -> M unit) : M unit :=
  match l with
  | [] => ret tt
  | x :: l' => let! _ := body x in for_each l' body
  end.

(** The body of the [for flow in flows] of [flow_daemon]: the execution
    of one flow inside its own [try]; both outcomes are only logged. *)
Definition execute_guarded (flow : Flow) : M unit :=
  try_except
    (let! executed :=
       call (EvExecuteFlow (name flow)) (fun h => execute_flow svc h (name flow)) in
     ret tt)
    (fun e => ret tt).

(** One iteration of the [while True] of [flow_daemon]. *)
Definition flow_daemon_tick : M unit :=
  let! _ :=
    try_except
      (let! flows := call EvGetFlowsToRun (get_flows_to_run svc) in
       for_each flows execute_guarded)
      (fun e => ret tt) in
  asyncio_sleep 60.

(** The first [ticks] iterations of [flow_daemon]; the loop has no exit of
    its own, so the daemon is the limit of these. *)
Fixpoint flow_daemon (ticks : nat) : M unit :=
  match ticks with
  | O => ret tt
  | S n => let! _ := flow_daemon_tick in flow_daemon n
  end.

End Handlers.

(** ** [clients/agent_communication.py] *)

(** The dict a send-message tool returns. *)
Inductive send_result : Type :=
| SendDelivered (message_id sender_id receiver_id created_at : option string)
| SendError (error : option string).

Module agent_communication.
Section Client.

Variable svc : services.

(** [AgentCommunicationClient.send_message], which the module-level
    [send_message] calls on the global client.  The constraints of
    [TerminalId] are declared outside the sources; of the request model's
    validation only [min_length=1] of [message] is reproduced. *)
Definition send_message (receiver_id message : string) : M send_result :=
  try_except
    (let! sender_id := os_getenv "TRON_TERMINAL_ID" in
     let! request :=
       if truthy message then ret (SendMessageRequest.mk receiver_id message sender_id)
       else raise (ValueError "String should have at least 1 character") in
     let! send_response :=
       call (EvPostSendMessage receiver_id message sender_id)
            (fun h => post_send_message svc h request) in
     if SendMessageResponse.success send_response then
       ret (SendDelivered (SendMessageResponse.message_id send_response)
                          (SendMessageResponse.sender_id send_response)
                          (SendMessageResponse.receiver_id send_response)
                          (SendMessageResponse.created_at send_response))
     else ret (SendError (SendMessageResponse.error send_response)))
    (fun e =>
       match e with
       | HTTPError _ => ret (SendError (Some ("HTTP error - " +:+ str e)))
       | _ => ret (SendError (Some (str e)))
       end).

End Client.
End agent_communication.

(** ** [agent_tools/http_server.py] *)

Module http_server.
Section Tools.

Variable svc : services.

(** [send_message], as called from synchronous code, where [asyncio.run]
    runs the client to its end. *)
Definition send_message (receiver_id message : string) (sender_id : option string)
    : M send_result :=
  try_except
    (let! original_sender := os_getenv "TRON_TERMINAL_ID" in
     let! _ :=
       match sender_id with
       | Some (String _ _ as sender_id) => os_setenv "TRON_TERMINAL_ID" sender_id
       | _ => ret tt
       end in
     try_finally
       (agent_communication.send_message svc receiver_id message)
       (match original_sender with
        | Some (String _ _ as original_sender) =>
            os_setenv "TRON_TERMINAL_ID" original_sender
        | _ =>
            if truthy_opt sender_id then
              let! present := os_environ_contains "TRON_TERMINAL_ID" in
              if present then os_delenv "TRON_TERMINAL_ID" else ret tt
            else ret tt
        end))
    (fun e => ret (SendError (Some (str e)))).

End Tools.
End http_server.

(** ** Concrete collaborators

    A family of deterministic collaborators, used to run the handlers on
    concrete requests.  The arguments choose what the status monitor, the
    input injection, the HTTP client, the inbox store and the flow service
    answer. *)

Definition sample_metadata : gmap string string :=
  <["provider" := "q_cli"]> (<["tmux_session" := "tron-main"]> ∅).

Definition sample_output : gmap string string :=
  <["output" := "done"]> (<["mode" := "last"]> ∅).

Definition sample_inbox_message (sender_id receiver_id message : string) : InboxMessage :=
  mkInboxMessage (IntId 1) sender_id receiver_id message PENDING "2025-01-01T00:00:00".

Definition mock (created_id : string) (duration : Z)
    (idle sent completed : result bool)
    (got posted : result Response)
    (enqueued : bool)
    (flows : result (list Flow)) (failing_flow : string) : services :=
  {| DEFAULT_PROVIDER := "kiro_cli";
     get_terminal_metadata := fun _ _ => Ok (Some sample_metadata);
     generate_session_name := fun _ => "tron-a1b2c3d4";
     generate_terminal_id := fun _ => "aaaa1111";
     create_terminal := fun _ provider agent_profile session_name _ =>
       Ok (mkTerminal created_id provider session_name agent_profile);
     job_duration := fun _ => duration;
     wait_until_terminal_status := fun _ _ target _ _ =>
       match target with IDLE => idle | _ => completed end;
     send_input := fun _ _ _ => sent;
     requests_get := fun _ _ _ _ => got;
     requests_post := fun _ _ _ _ => posted;
     post_send_message := fun _ request =>
       Ok (SendMessageResponse.mk true (Some "1")
             (Some (resolve_sender (SendMessageRequest.sender_id request) None))
             (Some (SendMessageRequest.receiver_id request))
             (Some "2025-01-01T00:00:00") None);
     execution_time := fun _ => "12.34";
     create_inbox_message := fun _ sender_id receiver_id message =>
       if enqueued then Ok (sample_inbox_message sender_id receiver_id message)
       else Raise (RuntimeError "database is locked");
     check_and_send_pending_messages := fun _ _ => Ok tt;
     get_inbox_messages := fun _ _ _ _ => Ok [];
     get_flows_to_run := fun _ => flows;
     execute_flow := fun _ flow_name =>
       if String.eqb flow_name failing_flow then Raise (RuntimeError "flow failed")
       else Ok true;
     session_exists := fun _ _ => Ok true;
     kill_session := fun _ _ => Ok tt |}.

Definition ok_response : Response := mkResponse 200 (Ok sample_output).

(** Every collaborator answers. *)
Definition svc_ok : services :=
  mock "bbbb2222" 3 (Ok true) (Ok true) (Ok true) (Ok ok_response) (Ok ok_response)
       true (Ok [mkFlow "nightly"; mkFlow "hourly"]) "".

Definition initial_state : state := mkState [] ∅.

Definition in_terminal (terminal_id : string) : state :=
  mkState [] (<["TRON_TERMINAL_ID" := terminal_id]> ∅).

Definition sample_handoff : HandoffRequest.t :=
  HandoffRequest.mk "developer" "fix the build" 600.

Definition sample_assign : AssignRequest.t :=
  AssignRequest.mk "developer" "fix the build".

(** ** Notions used by the statements *)

Definition is_creation_event (ev : event) : bool :=
  match ev with
  | EvWaitFor _ | EvGetTerminalMetadata _ | EvGenerateSessionName
  | EvCreateTerminal _ _ _ _ => true
  | _ => false
  end.

(** The bounded creation of a delegation call returned [terminal_id]. *)
Definition created svc (agent_profile : string) (s : state)
    (terminal_id provider : string) (s1 : state) : Prop :=
  wait_for svc 30 (_create_terminal_direct svc agent_profile) s
    = (Ok (terminal_id, provider), s1).

Definition is_ok_true (r : result bool) : bool :=
  match r with
  | Ok true => true
  | _ => false
  end.

(** The three stages of a handoff whose failure the handler reports: the
    wait for IDLE, the input injection and the wait for COMPLETED, each
    asked at the history it is called at.  [h] is the history at the end of
    the creation. *)
Definition handoff_stages_ok svc (request : HandoffRequest.t) (h : list event)
    (terminal_id : string) : bool :=
  let wait_idle := EvWaitUntilTerminalStatus terminal_id IDLE 30 None in
  let send := EvSendInput terminal_id (HandoffRequest.message request) in
  is_ok_true (wait_until_terminal_status svc h terminal_id IDLE 30 None)
  && is_ok_true (send_input svc (h ++ [wait_idle; EvSleep 2]) terminal_id
                   (HandoffRequest.message request))
  && is_ok_true (wait_until_terminal_status svc (h ++ [wait_idle; EvSleep 2; send])
                   terminal_id COMPLETED (HandoffRequest.timeout request) (Some 1)).

(** The calls of a handoff after the creation, in order. *)
Definition handoff_chain (request : HandoffRequest.t) (terminal_id : string) : list event :=
  [ EvWaitUntilTerminalStatus terminal_id IDLE 30 None;
    EvSleep 2;
    EvSendInput terminal_id (HandoffRequest.message request);
    EvWaitUntilTerminalStatus terminal_id COMPLETED (HandoffRequest.timeout request) (Some 1);
    EvRequestsGet (API_BASE_URL +:+ "/terminals/" +:+ terminal_id +:+ "/output")
                  [("mode", "last")] 10;
    EvRequestsPost (API_BASE_URL +:+ "/terminals/" +:+ terminal_id +:+ "/exit") [] 5 ].

(** Collaborators for the failing stages of a handoff. *)
Definition svc_never_idle : services :=
  mock "bbbb2222" 3 (Ok false) (Ok true) (Ok true) (Ok ok_response) (Ok ok_response)
       true (Ok []) "".


Definition svc_exit_fails : services :=
  mock "bbbb2222" 3 (Ok true) (Ok true) (Ok true)
       (Ok ok_response) (Raise (HTTPError "500 Server Error")) true (Ok []) "".

Definition svc_input_rejected : services :=
  mock "bbbb2222" 3 (Ok true) (Ok false) (Ok true) (Ok ok_response) (Ok ok_response)
       true (Ok []) "".

(** The state in which the creation of the samples ends. *)
Definition after_sample_creation : state :=
  mkState [EvWaitFor 30; EvGenerateSessionName;
           EvCreateTerminal "kiro_cli" "developer" "tron-a1b2c3d4" true] ∅.

(** The inbox store refuses the insertion. *)
Definition svc_store_down : services :=
  mock "bbbb2222" 3 (Ok true) (Ok true) (Ok true) (Ok ok_response) (Ok ok_response)
       false (Ok []) "".

Definition sample_send : SendMessageRequest.t :=
  SendMessageRequest.mk "rcv00001" "build is green" None.


(** The string an optional string holds, for statements. *)
Definition string_of (o : option string) : string :=
  match o with
  | Some s => s
  | None => ""
  end.






(** ** Notions for the inbox listing, the flow daemon and the sessions *)

(** The status code the framework answers with: the route's own code for a
    returned value, the code of a raised [HTTPException], and 500 for any
    other exception that leaves the handler. *)
Definition http_status {A} (route_code : Z) (r : result A) : Z :=
  match r with
  | Ok _ => route_code
  | Raise (HTTPException code _) => code
  | Raise _ => 500
  end.

(** The flows a tick finds eligible, asked at history [h]; none when the
    flow service raises. *)
Definition eligible svc (h : list event) : list Flow :=
  match get_flows_to_run svc h with
  | Ok flows => flows
  | Raise _ => []
  end.

(** The calls of one tick that starts at history [h]. *)
Definition tick_events svc (h : list event) : list event :=
  EvGetFlowsToRun :: map (fun flow => EvExecuteFlow (name flow)) (eligible svc h)
    ++ [EvSleep 60].

(** The calls of the first [ticks] ticks from history [h]. *)
Fixpoint daemon_events svc (ticks : nat) (h : list event) : list event :=
  match ticks with
  | O => []
  | S n => tick_events svc h ++ daemon_events svc n (h ++ tick_events svc h)
  end.

(** A flow service with three eligible flows, the second of which fails. *)
Definition svc_flaky_flow : services :=
  mock "bbbb2222" 3 (Ok true) (Ok true) (Ok true) (Ok ok_response) (Ok ok_response)
       true (Ok [mkFlow "nightly"; mkFlow "hourly"; mkFlow "weekly"]) "hourly".

Definition is_create_terminal (ev : event) : bool :=
  match ev with
  | EvCreateTerminal _ _ _ _ => true
  | _ => false
  end.

Definition not_create_terminal (ev : event) : bool := negb (is_create_terminal ev).

(** ** Further samples *)

(** The terminal service takes 45 seconds to create a terminal. *)
Definition svc_slow_creation : services :=
  mock "bbbb2222" 45 (Ok true) (Ok true) (Ok true) (Ok ok_response) (Ok ok_response)
       true (Ok []) "".

(** The caller's terminal is not in the database. *)
Definition svc_no_metadata : services :=
  {| DEFAULT_PROVIDER := "kiro_cli";
     get_terminal_metadata := fun _ _ => Ok None;
     generate_session_name := generate_session_name svc_ok;
     generate_terminal_id := generate_terminal_id svc_ok;
     create_terminal := create_terminal svc_ok;
     job_duration := job_duration svc_ok;
     wait_until_terminal_status := wait_until_terminal_status svc_ok;
     send_input := send_input svc_ok;
     requests_get := requests_get svc_ok;
     requests_post := requests_post svc_ok;
     post_send_message := post_send_message svc_ok;
     execution_time := execution_time svc_ok;
     create_inbox_message := create_inbox_message svc_ok;
     check_and_send_pending_messages := check_and_send_pending_messages svc_ok;
     get_inbox_messages := fun _ _ _ _ => Raise (ValueError "Terminal not found");
     get_flows_to_run := get_flows_to_run svc_ok;
     execute_flow := execute_flow svc_ok;
     session_exists := session_exists svc_ok;
     kill_session := kill_session svc_ok |}.

(** What the caller's metadata must hold for a terminal to be created in
    the caller's session. *)
Definition metadata_usable (metadata : option (gmap string string)) : bool :=
  match metadata with
  | Some d => bool_decide (is_Some (d !! "provider"))
              && bool_decide (is_Some (d !! "tmux_session"))
  | None => false
  end.

(** The terminal service takes 90 seconds to create a terminal. *)
Definition svc_very_slow_creation : services :=
  mock "bbbb2222" 90 (Ok true) (Ok true) (Ok true) (Ok ok_response) (Ok ok_response)
       true (Ok []) "".

(** * Further handlers

    The remaining endpoints of [api/main.py] that act on terminals,
    sessions and the inbox, and the handoff and assign tools of
    [clients/agent_communication.py] and [agent_tools/http_server.py]. *)

(** ** Further collaborators *)

(** A provider object, as far as the handlers use it: [provider.exit_cli()]. *)
Record Provider : Type := mkProvider { exit_cli : result string }.

(** What [terminal_service.get_terminal] returns, as far as the status
    endpoints use it: [terminal_info.status.value]. *)
Record TerminalInfo : Type := mkTerminalInfo { status_value : result string }.

Module HandoffResult.
Record t : Type := mk {
  success : bool;
  message : string;
  output : option string;
  terminal_id : option string
}.
End HandoffResult.

(** The collaborators of the further handlers.  The first seven only read;
    they are asked without an entry in the log of calls. *)
Record queries : Type := mkQueries {
  get_provider : list event -> string -> result (option Provider);
  get_terminal : list event -> string -> result (option TerminalInfo);
  list_terminals_by_session : list event -> string -> result (list (gmap string string));
  list_all_terminals : list event -> result (list (gmap string string));
  (* [db.execute(text("SELECT 1")).fetchone()] in a database session *)
  database_select_1 : list event -> result unit;
  list_sessions : list event -> result (list (gmap string string));
  (* [TERMINAL_LOG_DIR.exists()] *)
  log_dir_exists : list event -> result bool;
  (* [time.time()] *)
  time_time : list event -> string;
  (* the text of the [ValidationError] of a request model *)
  validation_error : list event -> string;
  (* the client's POST /agents/handoff and /agents/assign, up to the parsed
     reply *)
  post_handoff : list event -> HandoffRequest.t -> result HandoffResponse.t;
  post_assign : list event -> AssignRequest.t -> result AssignResponse.t;
  (* [db.query(InboxModel).all()] in a database session *)
  all_inbox_messages : list event -> result (list InboxMessage)
}.

(** A query: the oracle answers from the history; nothing is logged. *)
Definition ask {A} (oracle : list event -> result A) : M A :=
  fun s => (oracle (trace s), s).

(** The two [except] clauses that close the terminal, session and inbox
    endpoints: [except ValueError as e] raises
    [HTTPException(404, str(e))], [except Exception as e] raises
    [HTTPException(500, failure + str(e))]. *)
Definition http_errors {A} (failure : string) (m : M A) : M A :=
  try_except m
    (fun e =>
       match e with
       | ValueError _ => raise (HTTPException 404 (str e))
       | _ => raise (HTTPException 500 (failure +:+ str e))
       end).

(** A loop [for x in l] that updates a local [acc]. *)
Fixpoint for_fold {A S} (l : list A) (acc : S) (body : A -> S -> M S) : M S :=
  match l with
  | [] => ret acc
  | x :: l' => let! acc' := body x acc in for_fold l' acc' body
  end.

Module TerminalStatusEntry.
Record t : Type := mk {
  terminal_id : string;
  agent_profile : string;
  provider : string;
  status : string;
  error : option string
}.
End TerminalStatusEntry.

(** The two shapes of the answer of [get_session_status]. *)
Inductive SessionStatus : Type :=
| SessionNotFound (session_name : string)
| SessionActive (session_name : string) (terminal_count : nat)
                (terminals : list TerminalStatusEntry.t).

Module AgentsStatus.
Record t : Type := mk {
  total_terminals : nat;
  sessions : gmap string (list (gmap string string));
  timestamp : string
}.
End AgentsStatus.

Module InboxCreated.
Record t : Type := mk {
  success : bool;
  message_id : MessageId;
  sender_id : string;
  receiver_id : string;
  created_at : string
}.
End InboxCreated.

Definition SERVER_HOST : string := "localhost".
Definition SERVER_PORT : Z := 9889.
Definition SERVER_VERSION : string := "0.1.0".

Module DetailedHealth.
Record t : Type := mk {
  status : string;
  service : string;
  version : string;
  timestamp : string;
  database : string;
  sessions : nat + string;
  log_directory : bool;
  server_host : string;
  server_port : Z
}.
End DetailedHealth.

Section FurtherHandlers.

Variable svc : services.
Variable q : queries.

(** ** Terminal endpoints *)

Definition create_terminal_in_session (session_name provider agent_profile : string)
    : M Terminal :=
  http_errors "Failed to create terminal: "
    (call (EvCreateTerminal provider agent_profile session_name false)
          (fun h => create_terminal svc h provider agent_profile session_name false)).

Definition send_terminal_input (terminal_id message : string) : M bool :=
  http_errors "Failed to send input: "
    (call (EvSendInput terminal_id message)
          (fun h => send_input svc h terminal_id message)).

(** [exit_terminal]; its answer [{"success": True}] is the boolean. *)
Definition exit_terminal (terminal_id : string) : M bool :=
  http_errors "Failed to exit terminal: "
    (let! provider := ask (fun h => get_provider q h terminal_id) in
     match provider with
     | None => raise (ValueError ("Provider not found for terminal " +:+ terminal_id))
     | Some provider =>
         let! exit_command :=
           match exit_cli provider with
           | Ok command => ret command
           | Raise e => raise e
           end in
         let! _ :=
           call (EvSendInput terminal_id exit_command)
                (fun h => send_input svc h terminal_id exit_command) in
         ret true
     end).

(** ** Inbox *)

Definition create_inbox_message_endpoint (receiver_id sender_id message : string)
    : M InboxCreated.t :=
  http_errors "Failed to create inbox message: "
    (let! inbox_msg :=
       call (EvCreateInboxMessage sender_id receiver_id message)
            (fun h => create_inbox_message svc h sender_id receiver_id message) in
     let! _ :=
       call (EvCheckAndSendPendingMessages receiver_id)
            (fun h => check_and_send_pending_messages svc h receiver_id) in
     ret (InboxCreated.mk true (msg_id inbox_msg) (msg_sender_id inbox_msg)
            (msg_receiver_id inbox_msg) (msg_created_at inbox_msg))).

(** ** Status of sessions and agents *)

(** The body of the loop of [get_session_status]: the status of one
    terminal row, inside its own [try]. *)
Definition terminal_status_entry (terminal : gmap string string)
    : M TerminalStatusEntry.t :=
  try_except
    (let! key := getitem terminal "id" in
     let! terminal_info := ask (fun h => get_terminal q h key) in
     let! terminal_id := getitem terminal "id" in
     let! agent_profile := getitem terminal "agent_profile" in
     let! provider := getitem terminal "provider" in
     let! status :=
       match terminal_info with
       | Some info =>
           match status_value info with
           | Ok value => ret value
           | Raise e => raise e
           end
       | None => ret "unknown"
       end in
     ret (TerminalStatusEntry.mk terminal_id agent_profile provider status None))
    (fun e =>
       let! terminal_id := getitem terminal "id" in
       let! agent_profile := getitem terminal "agent_profile" in
       let! provider := getitem terminal "provider" in
       ret (TerminalStatusEntry.mk terminal_id agent_profile provider "error"
              (Some (str e)))).

Definition get_session_status (session_name : string) : M SessionStatus :=
  try_except
    (let! present :=
       call (EvSessionExists session_name) (fun h => session_exists svc h session_name) in
     if negb present then ret (SessionNotFound session_name)
     else
       let! terminals := ask (fun h => list_terminals_by_session q h session_name) in
       let! terminal_statuses :=
         for_fold terminals []
           (fun terminal terminal_statuses =>
              let! entry := terminal_status_entry terminal in
              ret (terminal_statuses ++ [entry])) in
       ret (SessionActive session_name (length terminals) terminal_statuses))
    (fun e =>
       raise (HTTPException 500 ("Failed to get session status: " +:+ str e))).

(** The body of the loop of [get_agents_status]: the row gets its
    ["status"] and is appended to the list of its session. *)
Definition agent_status_step (terminal : gmap string string)
    (sessions : gmap string (list (gmap string string)))
    : M (gmap string (list (gmap string string))) :=
  let session_name := default "unknown" (terminal !! "tmux_session") in
  let sessions :=
    if bool_decide (is_Some (sessions !! session_name)) then sessions
    else <[session_name := []]> sessions in
  let! terminal :=
    try_except
      (let! key := getitem terminal "id" in
       let! terminal_info := ask (fun h => get_terminal q h key) in
       let! value :=
         match terminal_info with
         | Some info =>
             match status_value info with
             | Ok value => ret value
             | Raise e => raise e
             end
         | None => raise (AttributeError "'NoneType' object has no attribute 'status'")
         end in
       ret (<["status" := value]> terminal))
      (fun e => ret (<["status" := "unknown"]> terminal)) in
  ret (alter (fun group => group ++ [terminal]) session_name sessions).

Definition get_agents_status : M AgentsStatus.t :=
  try_except
    (let! terminals := ask (list_all_terminals q) in
     let! sessions := for_fold terminals ∅ agent_status_step in
     let! timestamp := observe (time_time q) in
     ret (AgentsStatus.mk (length terminals) sessions timestamp))
    (fun e =>
       raise (HTTPException 500 ("Failed to get agents status: " +:+ str e))).

(** ** Health *)

Definition detailed_health_check : M DetailedHealth.t :=
  try_except
    (let! db_status :=
       try_except
         (let! _ := ask (database_select_1 q) in ret "ok")
         (fun e => ret ("error: " +:+ str e)) in
     let! session_count :=
       try_except
         (let! sessions := ask (list_sessions q) in ret (inl (length sessions)))
         (fun e => ret (inr ("error: " +:+ str e))) in
     let! log_dir_exists := ask (log_dir_exists q) in
     let! timestamp := observe (time_time q) in
     ret (DetailedHealth.mk "ok" "cli-agent-manager" SERVER_VERSION timestamp
            db_status session_count log_dir_exists SERVER_HOST SERVER_PORT))
    (fun e =>
       raise (HTTPException 503 ("Health check failed: " +:+ str e))).

End FurtherHandlers.

(** ** The handoff and assign tools *)

(** [clients/agent_communication.py]: the methods of the global
    [agent_client], whose [base_url] is [API_BASE_URL] and whose [timeout]
    is 30 seconds. *)
Module agent_client.
Section Client.

Variable q : queries.

Definition timeout : Z := 30.

(** [HandoffRequest(agent_profile=..., message=..., timeout=...)]: the
    declared constraints of [api/models.py]. *)
Definition new_HandoffRequest (agent_profile message : string) (handoff_timeout : Z)
    : M HandoffRequest.t :=
  if truthy agent_profile && truthy message
     && (1 <=? handoff_timeout) && (handoff_timeout <=? 3600)
  then ret (HandoffRequest.mk agent_profile message handoff_timeout)
  else let! text := observe (validation_error q) in raise (ValueError text).

(** [AssignRequest(agent_profile=..., message=...)] *)
Definition new_AssignRequest (agent_profile message : string) : M AssignRequest.t :=
  if truthy agent_profile && truthy message
  then ret (AssignRequest.mk agent_profile message)
  else let! text := observe (validation_error q) in raise (ValueError text).

Definition handoff (agent_profile message : string) (handoff_timeout : Z)
    : M HandoffResult.t :=
  try_except
    (let! request := new_HandoffRequest agent_profile message handoff_timeout in
     let! handoff_response :=
       call (EvRequestsPost (API_BASE_URL +:+ "/agents/handoff")
               [("agent_profile", HandoffRequest.agent_profile request);
                ("message", HandoffRequest.message request);
                ("timeout", pretty (HandoffRequest.timeout request))]
               timeout)
            (fun h => post_handoff q h request) in
     ret (HandoffResult.mk (HandoffResponse.success handoff_response)
            (HandoffResponse.message handoff_response)
            (HandoffResponse.output handoff_response)
            (HandoffResponse.terminal_id handoff_response)))
    (fun e =>
       match e with
       | HTTPError _ =>
           ret (HandoffResult.mk false ("Handoff failed: HTTP error - " +:+ str e)
                  None None)
       | _ =>
           ret (HandoffResult.mk false ("Handoff failed: " +:+ str e) None None)
       end).

(** [assign]; the dict it returns has the keys of [AssignResponse]. *)
Definition assign (agent_profile message : string) : M AssignResponse.t :=
  try_except
    (let! request := new_AssignRequest agent_profile message in
     let! assign_response :=
       call (EvRequestsPost (API_BASE_URL +:+ "/agents/assign")
               [("agent_profile", AssignRequest.agent_profile request);
                ("message", AssignRequest.message request)]
               timeout)
            (fun h => post_assign q h request) in
     ret (AssignResponse.mk (AssignResponse.success assign_response)
            (AssignResponse.terminal_id assign_response)
            (AssignResponse.message assign_response)))
    (fun e =>
       match e with
       | HTTPError _ =>
           ret (AssignResponse.mk false None
                  ("Assignment failed: HTTP error - " +:+ str e))
       | _ =>
           ret (AssignResponse.mk false None ("Assignment failed: " +:+ str e))
       end).

End Client.
End agent_client.

(** [agent_tools/http_server.py]: the synchronous wrappers of the two
    tools; the dict of [handoff] has the keys of [HandoffResult]. *)
Module http_server_tools.
Section Tools.

Variable q : queries.

(** [asyncio.run(coro)].  Called while an event loop is running in the
    calling thread it raises [RuntimeError] and the coroutine is never
    started; otherwise it runs the coroutine to its end.  Whether a loop is
    running belongs to the caller: [running_loop] is true for a call from
    a coroutine, as the calls that [main] of the same file makes, and false
    for a call from synchronous code. *)
Definition asyncio_run {A} (running_loop : bool) (coro : M A) : M A :=
  if running_loop
  then raise (RuntimeError "asyncio.run() cannot be called from a running event loop")
  else coro.

Definition handoff (running_loop : bool) (agent_profile message : string)
    (handoff_timeout : Z) : M HandoffResult.t :=
  try_except
    (let! result :=
       asyncio_run running_loop
         (agent_client.handoff q agent_profile message handoff_timeout) in
     ret (HandoffResult.mk (HandoffResult.success result) (HandoffResult.message result)
            (HandoffResult.output result) (HandoffResult.terminal_id result)))
    (fun e =>
       ret (HandoffResult.mk false ("Handoff failed: " +:+ str e) None None)).

Definition assign (running_loop : bool) (agent_profile message : string)
    : M AssignResponse.t :=
  try_except
    (asyncio_run running_loop (agent_client.assign q agent_profile message))
    (fun e => ret (AssignResponse.mk false None ("Assignment failed: " +:+ str e))).

End Tools.
End http_server_tools.

(** ** Sample collaborators of the further handlers *)

Definition sample_row (terminal_id session_name : string) : gmap string string :=
  <["id" := terminal_id]>
    (<["agent_profile" := "developer"]>
       (<["provider" := "q_cli"]> (<["tmux_session" := session_name]> ∅))).

Definition sample_rows : list (gmap string string) :=
  [sample_row "aaaa1111" "tron-main"; sample_row "bbbb2222" "tron-side";
   sample_row "cccc3333" "tron-main"].

(** The queries answer; the terminal [bbbb2222] cannot be inspected. *)
Definition queries_ok : queries :=
  {| get_provider := fun _ terminal_id =>
       if String.eqb terminal_id "bbbb2222" then Ok None
       else Ok (Some (mkProvider (Ok "/exit")));
     get_terminal := fun _ terminal_id =>
       if String.eqb terminal_id "bbbb2222" then Raise (RuntimeError "pane is gone")
       else Ok (Some (mkTerminalInfo (Ok "idle")));
     list_terminals_by_session := fun _ _ => Ok sample_rows;
     list_all_terminals := fun _ => Ok sample_rows;
     database_select_1 := fun _ => Raise (RuntimeError "database is locked");
     list_sessions := fun _ => Raise (RuntimeError "no server running");
     log_dir_exists := fun _ => Ok true;
     time_time := fun _ => "1730000000.0";
     validation_error := fun _ => "1 validation error for HandoffRequest";
     post_handoff := fun _ request =>
       Ok (HandoffResponse.mk true "Successfully handed off" (Some "done")
             (Some "bbbb2222"));
     post_assign := fun _ request =>
       Ok (AssignResponse.mk true (Some "bbbb2222") "Task assigned");
     all_inbox_messages := fun _ =>
       Ok [mkInboxMessage (IntId 1) "aaaa1111" "rcv00001" "build is green" DELIVERED
             "2025-01-01T00:00:00";
           mkInboxMessage (IntId 2) "aaaa1111" "rcv00002" "deploy" PENDING
             "2025-01-01T00:00:01";
           mkInboxMessage (IntId 3) "cccc3333" "rcv00001" "tests pass" PENDING
             "2025-01-01T00:00:02"] |}.

(** A row has the keys the status endpoints read. *)
Definition row_complete (row : gmap string string) : bool :=
  bool_decide (is_Some (row !! "id"))
  && bool_decide (is_Some (row !! "agent_profile"))
  && bool_decide (is_Some (row !! "provider")).

(** The status [get_session_status] reports for the terminal [terminal_id]
    when the terminal service is asked at history [h]. *)
Definition reported_status (q : queries) (h : list event) (terminal_id : string)
    : string * option string :=
  match get_terminal q h terminal_id with
  | Ok (Some info) =>
      match status_value info with
      | Ok value => (value, None)
      | Raise e => ("error", Some (str e))
      end
  | Ok None => ("unknown", None)
  | Raise e => ("error", Some (str e))
  end.

(** The ["status"] [get_agents_status] writes into the row of
    [terminal_id]. *)
Definition agents_status_of (q : queries) (h : list event) (row : gmap string string)
    : string :=
  match row !! "id" with
  | Some terminal_id =>
      match get_terminal q h terminal_id with
      | Ok (Some info) =>
          match status_value info with
          | Ok value => value
          | Raise _ => "unknown"
          end
      | _ => "unknown"
      end
  | None => "unknown"
  end.

Definition session_of (row : gmap string string) : string :=
  default "unknown" (row !! "tmux_session").

(** The request model accepts the arguments of a handoff. *)
Definition handoff_arguments_valid (agent_profile message : string) (handoff_timeout : Z)
    : bool :=
  truthy agent_profile && truthy message
  && (1 <=? handoff_timeout) && (handoff_timeout <=? 3600).

Definition is_http_post (ev : event) : bool :=
  match ev with
  | EvRequestsPost _ _ _ => true
  | _ => false
  end.

(** The entry [get_session_status] lists for a complete row. *)
Definition session_entry (q : queries) (h : list event) (row : gmap string string)
    : TerminalStatusEntry.t :=
  let terminal_id := default "" (row !! "id") in
  TerminalStatusEntry.mk terminal_id
    (default "" (row !! "agent_profile")) (default "" (row !! "provider"))
    (fst (reported_status q h terminal_id)) (snd (reported_status q h terminal_id)).

(** The row as [get_agents_status] lists it: with its ["status"]. *)
Definition with_status (q : queries) (h : list event) (row : gmap string string)
    : gmap string string :=
  <["status" := agents_status_of q h row]> row.

(** The rows of session [session_name], in the order of the listing. *)
Definition group_of (q : queries) (h : list event) (session_name : string)
    (rows : list (gmap string string)) : list (gmap string string) :=
  map (with_status q h)
      (List.filter (fun row => String.eqb (session_of row) session_name) rows).

(** A row without its agent profile. *)
Definition broken_row : gmap string string :=
  <["id" := "dddd4444"]> (<["provider" := "q_cli"]> ∅).

(** The multiplexer knows no session. *)
Definition svc_no_session : services :=
  {| DEFAULT_PROVIDER := "kiro_cli";
     get_terminal_metadata := get_terminal_metadata svc_ok;
     generate_session_name := generate_session_name svc_ok;
     generate_terminal_id := generate_terminal_id svc_ok;
     create_terminal := create_terminal svc_ok;
     job_duration := job_duration svc_ok;
     wait_until_terminal_status := wait_until_terminal_status svc_ok;
     send_input := send_input svc_ok;
     requests_get := requests_get svc_ok;
     requests_post := requests_post svc_ok;
     post_send_message := post_send_message svc_ok;
     execution_time := execution_time svc_ok;
     create_inbox_message := create_inbox_message svc_ok;
     check_and_send_pending_messages := check_and_send_pending_messages svc_ok;
     get_inbox_messages := get_inbox_messages svc_ok;
     get_flows_to_run := get_flows_to_run svc_ok;
     execute_flow := execute_flow svc_ok;
     session_exists := fun _ _ => Ok false;
     kill_session := kill_session svc_ok |}.

(** The listing of a session holds a row without agent profile; the log
    directory cannot be read; the server does not answer. *)
Definition queries_broken : queries :=
  {| get_provider := get_provider queries_ok;
     get_terminal := get_terminal queries_ok;
     list_terminals_by_session := fun _ _ =>
       Ok [sample_row "aaaa1111" "tron-main"; broken_row];
     list_all_terminals := fun _ => Ok [sample_row "aaaa1111" "tron-main"; broken_row];
     database_select_1 := database_select_1 queries_ok;
     list_sessions := list_sessions queries_ok;
     log_dir_exists := fun _ => Raise (RuntimeError "permission denied");
     time_time := time_time queries_ok;
     validation_error := validation_error queries_ok;
     post_handoff := fun _ _ => Raise (HTTPError "timed out");
     post_assign := fun _ _ => Raise (HTTPError "timed out");
     all_inbox_messages := fun _ => Raise (RuntimeError "database is locked") |}.

(** The groups of a listing, merged into the groups collected before. *)
Definition merge_group (collected : option (list (gmap string string)))
    (group : list (gmap string string)) : option (list (gmap string string)) :=
  match collected, group with
  | None, [] => None
  | _, _ => Some (default [] collected ++ group)
  end.

(** ** All messages *)

(** [s[:n]] *)
Fixpoint string_take (n : nat) (s : string) : string :=
  match n, s with
  | S n', String c s' => String c (string_take n' s')
  | _, _ => EmptyString
  end.

(** The message text [get_all_messages] shows:
    [message[:100] + "..." if len(message) > 100 else message]. *)
Definition message_preview (message : string) : string :=
  if (100 <? String.length message)%nat then string_take 100 message +:+ "..."
  else message.

Module MessagePreview.
Record t : Type := mk {
  id : MessageId;
  sender_id : string;
  message : string;
  status : MessageStatus;
  created_at : string
}.
End MessagePreview.

Module AllMessages.
Record t : Type := mk {
  total_messages : nat;
  by_receiver : gmap string (list MessagePreview.t);
  timestamp : string
}.
End AllMessages.

(** The entry of one message in the listing of its receiver. *)
Definition preview_of (msg : InboxMessage) : MessagePreview.t :=
  MessagePreview.mk (msg_id msg) (msg_sender_id msg) (message_preview (msg_message msg))
    (msg_status msg) (msg_created_at msg).

(** The body of the loop of [get_all_messages]. *)
Definition by_receiver_step (msg : InboxMessage)
    (by_receiver : gmap string (list MessagePreview.t))
    : gmap string (list MessagePreview.t) :=
  let by_receiver :=
    if bool_decide (is_Some (by_receiver !! msg_receiver_id msg)) then by_receiver
    else <[msg_receiver_id msg := []]> by_receiver in
  alter (fun group => group ++ [preview_of msg]) (msg_receiver_id msg) by_receiver.

Definition get_all_messages (q : queries) : M AllMessages.t :=
  try_except
    (let! messages := ask (all_inbox_messages q) in
     let! by_receiver :=
       for_fold messages ∅ (fun msg by_receiver => ret (by_receiver_step msg by_receiver)) in
     let! timestamp := observe (time_time q) in
     ret (AllMessages.mk (length messages) by_receiver timestamp))
    (fun e => raise (HTTPException 500 ("Failed to get messages: " +:+ str e))).

(** The messages of one receiver, in the order of the table. *)
Definition inbox_of (receiver_id : string) (messages : list InboxMessage)
    : list MessagePreview.t :=
  map preview_of
      (List.filter (fun msg => String.eqb (msg_receiver_id msg) receiver_id) messages).

(** The inbox table of the sample queries. *)
Definition sample_inbox_table : list InboxMessage :=
  [mkInboxMessage (IntId 1) "aaaa1111" "rcv00001" "build is green" DELIVERED
     "2025-01-01T00:00:00";
   mkInboxMessage (IntId 2) "aaaa1111" "rcv00002" "deploy" PENDING "2025-01-01T00:00:01";
   mkInboxMessage (IntId 3) "cccc3333" "rcv00001" "tests pass" PENDING "2025-01-01T00:00:02"].

(** * Properties *)

(** ** Strings *)

Lemma append_nil_l (s : string) : "" +:+ s = s.
Proof. reflexivity. Qed.

Lemma append_cons (c : Ascii.ascii) (s t : string) :
  String c s +:+ t = String c (s +:+ t).
Proof. reflexivity. Qed.

Lemma truthy_app_l (a b : string) : truthy a = true -> truthy (a +:+ b) = true.
Proof. destruct a; [discriminate|]. rewrite append_cons. reflexivity. Qed.

Lemma startswith_app (needle rest : string) :
  startswith (needle +:+ rest) needle = true.
Proof.
  induction needle as [|c needle IH]; [reflexivity|].
  rewrite append_cons. simpl. rewrite Ascii.eqb_refl. exact IH.
Qed.

Lemma contains_startswith (needle hay : string) :
  startswith hay needle = true -> contains needle hay = true.
Proof.
  destruct hay; simpl; intros ->; reflexivity.
Qed.

Lemma contains_app (needle before after : string) :
  contains needle (before +:+ needle +:+ after) = true.
Proof.
  induction before as [|c before IH].
  - rewrite append_nil_l. apply contains_startswith, startswith_app.
  - rewrite append_cons. simpl. rewrite IH. apply orb_true_r.
Qed.

(** ** Terminal creation *)

Ltac run_step :=
  match goal with
  | H : (_, _) = (_, _) |- _ => inversion H; subst; clear H
  | H : Ok _ = Ok _ |- _ => inversion H; subst; clear H
  | H : context [match ?x with _ => _ end] |- _ => destruct x eqn:?; simpl in H
  | H : Raise _ = Ok _ |- _ => discriminate H
  | H : Ok _ = Raise _ |- _ => discriminate H
  end.

(** What [_create_terminal_direct] does when it returns: one creation
    call, after one look-up of the caller's metadata or one generated
    session name, and the id it returns is the id of the terminal the
    terminal service created. *)
Lemma create_terminal_direct_returns svc agent_profile s terminal_id provider s1 :
  _create_terminal_direct svc agent_profile s = (Ok (terminal_id, provider), s1) ->
  exists pre session_name new_session terminal,
    Forall (fun ev => is_creation_event ev = true) pre /\
    trace s1 = trace s ++ pre ++ [EvCreateTerminal provider agent_profile session_name new_session] /\
    create_terminal svc (trace s ++ pre) provider agent_profile session_name new_session
      = Ok terminal /\
    id terminal = terminal_id /\
    environ s1 = environ s.
Proof.
  unfold _create_terminal_direct, bind, os_getenv, call, getitem, ret, raise.
  intros H. simpl in H.
  repeat run_step.
  all: eexists [_], _, _, _; simpl; rewrite <- app_assoc; simpl.
  all: split; [|split; [reflexivity|split; [eassumption|split; reflexivity]]].
  all: repeat constructor.
Qed.

Lemma wait_for_returns {A} svc timeout (job : M A) s a s1 :
  wait_for svc timeout job s = (Ok a, s1) ->
  job (mkState (trace s ++ [EvWaitFor timeout]) (environ s)) = (Ok a, s1) /\
  job_duration svc (trace s) <= timeout.
Proof.
  unfold wait_for. intros H.
  destruct (job _) as [r s'] eqn:Hjob.
  destruct (Z.leb_spec (job_duration svc (trace s)) timeout); [|discriminate].
  inversion H; subst. split; [reflexivity|assumption].
Qed.


Lemma created_trace svc agent_profile s terminal_id provider s1 :
  created svc agent_profile s terminal_id provider s1 ->
  exists pre session_name new_session terminal,
    Forall (fun ev => is_creation_event ev = true) pre /\
    trace s1 = trace s ++ EvWaitFor 30 :: pre
                 ++ [EvCreateTerminal provider agent_profile session_name new_session] /\
    create_terminal svc (trace s ++ EvWaitFor 30 :: pre)
                    provider agent_profile session_name new_session = Ok terminal /\
    id terminal = terminal_id /\
    job_duration svc (trace s) <= 30.
Proof.
  intros H. apply wait_for_returns in H as [H Hd].
  apply create_terminal_direct_returns in H
    as (pre & session_name & new_session & terminal & Hpre & Htr & Hc & Hid & _).
  simpl in Htr, Hc. rewrite <- app_assoc in Htr, Hc. simpl in Htr, Hc.
  exists pre, session_name, new_session, terminal. auto.
Qed.

(** ** Handoff *)

(* Case analysis on an answer the goal branches on, innermost first. *)
Ltac run_goal :=
  match goal with
  | |- context [match ?x with _ => _ end] =>
      lazymatch x with
      | context [match _ with _ => _ end] => fail
      | _ => destruct x eqn:?; simpl
      end
  | |- context [if ?x then _ else _] =>
      lazymatch x with
      | context [match _ with _ => _ end] => fail
      | _ => destruct x eqn:?; simpl
      end
  end.

(** Once the creation has returned, [handoff_agent] is the guarded run of
    [handoff_after_create]. *)
Lemma handoff_agent_created svc request s terminal_id provider s1 :
  created svc (HandoffRequest.agent_profile request) s terminal_id provider s1 ->
  handoff_agent svc request s =
    try_except (handoff_after_create svc request terminal_id provider)
      (fun e => ret (HandoffResponse.mk false ("Handoff failed: " +:+ str e)
                       None (Some terminal_id))) s1.
Proof.
  unfold created, handoff_agent. intros H.
  unfold try_except at 1 2, bind at 1 2. rewrite H. simpl.
  unfold try_except, ret. destruct (handoff_after_create _ _ _ _ _) as [[?|?] ?]; reflexivity.
Qed.

Lemma handoff_after_create_outcome svc request terminal_id provider s1 :
  exists response s2,
    try_except (handoff_after_create svc request terminal_id provider)
      (fun e => ret (HandoffResponse.mk false ("Handoff failed: " +:+ str e)
                       None (Some terminal_id))) s1 = (Ok response, s2) /\
    HandoffResponse.terminal_id response = Some terminal_id /\
    truthy (HandoffResponse.message response) = true /\
    HandoffResponse.success response
      = handoff_stages_ok svc request (trace s1) terminal_id /\
    (HandoffResponse.success response = true ->
       trace s2 = trace s1 ++ handoff_chain request terminal_id /\
       is_Some (HandoffResponse.output response)).
Proof.
  unfold handoff_stages_ok, handoff_chain, handoff_after_create, try_except,
    wait_until, _send_direct_input_direct, asyncio_sleep, raise_for_status,
    response_json, getitem, observe, call, bind, ret, raise.
  simpl. rewrite <- ?app_assoc. simpl.
  repeat (run_goal; rewrite <- ?app_assoc; simpl).
  all: eexists _, _; split; [reflexivity|]; simpl.
  all: repeat split; try reflexivity; try discriminate; eauto.
Qed.

Lemma append_assoc (a b c : string) : (a +:+ b) +:+ c = a +:+ (b +:+ c).
Proof.
  induction a as [|x a IH]; [reflexivity|].
  rewrite !append_cons, IH. reflexivity.
Qed.

(** A handoff whose creation failed reports a failure. *)
Lemma handoff_agent_not_created svc request s e s1 :
  wait_for svc 30 (_create_terminal_direct svc (HandoffRequest.agent_profile request)) s
    = (Raise e, s1) ->
  exists response,
    handoff_agent svc request s = (Ok response, s1) /\
    HandoffResponse.success response = false /\
    HandoffResponse.terminal_id response = None.
Proof.
  intros H. unfold handoff_agent.
  unfold try_except, bind. rewrite H.
  destruct e; simpl; eexists; (split; [reflexivity|split; reflexivity]).
Qed.




(** The same for the exit command. *)
Lemma handoff_failed_exit_reports_success :
  fst (handoff_agent svc_exit_fails sample_handoff initial_state)
    = Ok (HandoffResponse.mk true
            "Successfully handed off to developer (kiro_cli) in 12.34s"
            (Some "done") (Some "bbbb2222")).
Proof. reflexivity. Qed.

(** C2.  A handoff that reports success has made exactly these calls, in
    this order: the creation of the terminal awaited with a bound of 30
    seconds, the wait for IDLE bounded by 30 seconds, a sleep of 2 seconds,
    the injection of the message, the wait for COMPLETED bounded by the
    request's timeout and polling every second, the GET of the output in
    mode [last] and the POST of the exit command; and its result carries
    the success flag, a message, an output and the created terminal's id. *)
Theorem handoff_success_chain svc request s response s2 :
  handoff_agent svc request s = (Ok response, s2) ->
  HandoffResponse.success response = true ->
  exists terminal_id provider pre session_name new_session terminal,
    trace s2 = trace s ++ EvWaitFor 30 :: pre
                 ++ EvCreateTerminal provider (HandoffRequest.agent_profile request)
                      session_name new_session
                 :: handoff_chain request terminal_id /\
    Forall (fun ev => is_creation_event ev = true) pre /\
    create_terminal svc (trace s ++ EvWaitFor 30 :: pre) provider
      (HandoffRequest.agent_profile request) session_name new_session = Ok terminal /\
    id terminal = terminal_id /\
    HandoffResponse.terminal_id response = Some terminal_id /\
    is_Some (HandoffResponse.output response) /\
    truthy (HandoffResponse.message response) = true.
Proof.
  intros Hrun Hsucc.
  destruct (wait_for svc 30
              (_create_terminal_direct svc (HandoffRequest.agent_profile request)) s)
    as [[[terminal_id provider]|e] s1] eqn:Hc.
  - rewrite (handoff_agent_created _ _ _ _ _ _ Hc) in Hrun.
    destruct (handoff_after_create_outcome svc request terminal_id provider s1)
      as (response' & s2' & Hrun' & Hid & Hmsg & _ & Hchain).
    rewrite Hrun' in Hrun. inversion Hrun; subst response' s2'.
    destruct (Hchain Hsucc) as [Htr Hout].
    destruct (created_trace _ _ _ _ _ _ Hc)
      as (pre & session_name & new_session & terminal & Hpre & Htr1 & Hcr & Hidt & _).
    exists terminal_id, provider, pre, session_name, new_session, terminal.
    rewrite Htr, Htr1. rewrite <- !app_assoc. simpl. rewrite <- !app_assoc. simpl.
    auto 10.
  - destruct (handoff_agent_not_created _ _ _ _ _ Hc) as (response' & Hrun' & Hf & _).
    rewrite Hrun' in Hrun. inversion Hrun; subst. congruence.
Qed.

Lemma handoff_success_chain_witness :
  exists terminal_id provider pre session_name new_session terminal,
    [EvWaitFor 30; EvGenerateSessionName;
     EvCreateTerminal "kiro_cli" "developer" "tron-a1b2c3d4" true;
     EvWaitUntilTerminalStatus "bbbb2222" IDLE 30 None;
     EvSleep 2;
     EvSendInput "bbbb2222" "fix the build";
     EvWaitUntilTerminalStatus "bbbb2222" COMPLETED 600 (Some 1);
     EvRequestsGet "http://localhost:9889/terminals/bbbb2222/output" [("mode", "last")] 10;
     EvRequestsPost "http://localhost:9889/terminals/bbbb2222/exit" [] 5]
    = [] ++ EvWaitFor 30 :: pre
        ++ EvCreateTerminal provider "developer" session_name new_session
        :: handoff_chain sample_handoff terminal_id /\
    Forall (fun ev => is_creation_event ev = true) pre /\
    create_terminal svc_ok ([] ++ EvWaitFor 30 :: pre) provider
      "developer" session_name new_session = Ok terminal /\
    id terminal = terminal_id /\
    Some "bbbb2222" = Some terminal_id /\
    is_Some (Some "done") /\
    truthy "Successfully handed off to developer (kiro_cli) in 12.34s" = true.
Proof.
  apply (handoff_success_chain svc_ok sample_handoff initial_state
           (HandoffResponse.mk true
              "Successfully handed off to developer (kiro_cli) in 12.34s"
              (Some "done") (Some "bbbb2222"))
           (mkState
              [EvWaitFor 30; EvGenerateSessionName;
               EvCreateTerminal "kiro_cli" "developer" "tron-a1b2c3d4" true;
               EvWaitUntilTerminalStatus "bbbb2222" IDLE 30 None;
               EvSleep 2;
               EvSendInput "bbbb2222" "fix the build";
               EvWaitUntilTerminalStatus "bbbb2222" COMPLETED 600 (Some 1);
               EvRequestsGet "http://localhost:9889/terminals/bbbb2222/output"
                 [("mode", "last")] 10;
               EvRequestsPost "http://localhost:9889/terminals/bbbb2222/exit" [] 5]
              ∅)); reflexivity.
Defined.

(** C3.  When the created terminal of a handoff does not reach IDLE within
    the 30 seconds of the readiness wait, the result has [success = false],
    a message that contains "did not reach IDLE status", and the created
    terminal's id. *)
Theorem handoff_never_idle svc request s terminal_id provider s1 :
  created svc (HandoffRequest.agent_profile request) s terminal_id provider s1 ->
  wait_until_terminal_status svc (trace s1) terminal_id IDLE 30 None = Ok false ->
  exists response s2,
    handoff_agent svc request s = (Ok response, s2) /\
    HandoffResponse.success response = false /\
    contains "did not reach IDLE status" (HandoffResponse.message response) = true /\
    HandoffResponse.terminal_id response = Some terminal_id.
Proof.
  intros Hc Hidle. rewrite (handoff_agent_created _ _ _ _ _ _ Hc).
  unfold try_except, handoff_after_create, wait_until, call, bind.
  rewrite Hidle. simpl.
  eexists _, _. split; [reflexivity|].
  split; [reflexivity|split; [|reflexivity]].
  cbv [HandoffResponse.message].
  change " did not reach IDLE status within 30 seconds"
    with (" " +:+ "did not reach IDLE status" +:+ " within 30 seconds").
  rewrite <- (append_assoc terminal_id " "), <- (append_assoc "Terminal ").
  apply contains_app.
Qed.

Lemma handoff_never_idle_witness :
  exists response s2,
    handoff_agent svc_never_idle sample_handoff initial_state = (Ok response, s2) /\
    HandoffResponse.success response = false /\
    contains "did not reach IDLE status" (HandoffResponse.message response) = true /\
    HandoffResponse.terminal_id response = Some "bbbb2222".
Proof.
  apply (handoff_never_idle svc_never_idle sample_handoff initial_state
           "bbbb2222" "kiro_cli" after_sample_creation); reflexivity.
Defined.

(** ** Assign *)


(** C5, on the code: an assign call whose terminal was created and whose
    input injection is then rejected returns a failure without the id of
    the terminal it created. *)
Theorem assign_failure_drops_terminal_id :
  created svc_input_rejected "developer" initial_state "bbbb2222" "kiro_cli"
          after_sample_creation /\
  send_input svc_input_rejected (trace after_sample_creation) "bbbb2222" "fix the build"
    = Ok false /\
  fst (assign_agent svc_input_rejected sample_assign initial_state)
    = Ok (AssignResponse.mk false None
            "Assignment failed: Failed to send input to terminal bbbb2222").
Proof. repeat split. Qed.

(** The handoff handler, on the same failure, keeps the id. *)
Lemma handoff_input_rejected_keeps_terminal_id :
  fst (handoff_agent svc_input_rejected sample_handoff initial_state)
    = Ok (HandoffResponse.mk false
            "Handoff failed: Failed to send input to terminal bbbb2222"
            None (Some "bbbb2222")).
Proof. reflexivity. Qed.

(** For every assign call that created a terminal and then failed to
    inject the message, the result carries no terminal id. *)
Lemma assign_failure_after_creation svc request s terminal_id provider s1 :
  created svc (AssignRequest.agent_profile request) s terminal_id provider s1 ->
  send_input svc (trace s1) terminal_id (AssignRequest.message request) <> Ok true ->
  exists response s2,
    assign_agent svc request s = (Ok response, s2) /\
    AssignResponse.success response = false /\
    AssignResponse.terminal_id response = None.
Proof.
  unfold created. intros Hc Hsend.
  unfold assign_agent, try_except, bind. rewrite Hc. simpl.
  unfold _send_direct_input_direct, call, bind.
  destruct (send_input svc (trace s1) terminal_id (AssignRequest.message request))
    as [[|]|e]; simpl; [congruence| |];
    eexists _, _; (split; [reflexivity|split; reflexivity]).
Qed.

(** ** Send message *)

(** C6 (as amended).  A send-message call makes exactly one enqueue call
    for the receiver.  When the enqueue returns, exactly one delivery
    attempt for that receiver follows it immediately; when the enqueue
    raises, no delivery attempt is made.  The call returns either the
    message's metadata or a structured error (success false, an error
    text): the metadata only when both steps returned and the response
    model took the message id, which it does for a string id and not for
    an integer one; a structured error in every other case. *)
Theorem send_message_enqueue_then_deliver svc request s :
  let receiver_id := SendMessageRequest.receiver_id request in
  let message := SendMessageRequest.message request in
  let sender_id :=
    resolve_sender (SendMessageRequest.sender_id request)
                   (environ s !! "TRON_TERMINAL_ID") in
  let enqueue := EvCreateInboxMessage sender_id receiver_id message in
  exists response s2,
    send_message_to_agent svc request s = (Ok response, s2) /\
    match create_inbox_message svc (trace s) sender_id receiver_id message with
    | Ok inbox_msg =>
        trace s2 = trace s ++ [enqueue; EvCheckAndSendPendingMessages receiver_id] /\
        match check_and_send_pending_messages svc (trace s ++ [enqueue]) receiver_id,
              msg_id inbox_msg with
        | Ok _, StrId id =>
            response = SendMessageResponse.mk true
                         (Some id) (Some (msg_sender_id inbox_msg))
                         (Some (msg_receiver_id inbox_msg))
                         (Some (msg_created_at inbox_msg)) None
        | _, _ =>
            SendMessageResponse.success response = false /\
            SendMessageResponse.message_id response = None /\
            is_Some (SendMessageResponse.error response)
        end
    | Raise _ =>
        trace s2 = trace s ++ [enqueue] /\
        SendMessageResponse.success response = false /\
        SendMessageResponse.message_id response = None /\
        is_Some (SendMessageResponse.error response)
    end.
Proof.
  simpl.
  unfold send_message_to_agent, new_SendMessageResponse, try_except, bind, os_getenv,
    call, ret, raise.
  simpl.
  destruct (create_inbox_message svc (trace s) _ _ _) as [inbox_msg|e]; simpl.
  - destruct (check_and_send_pending_messages svc _ _) as [u|e]; simpl.
    + destruct (msg_id inbox_msg) as [n|id]; simpl.
      * eexists _, _. split; [reflexivity|]. simpl.
        rewrite <- app_assoc. repeat split; eauto.
      * eexists _, _. split; [reflexivity|]. simpl.
        rewrite <- app_assoc. split; reflexivity.
    + destruct e; eexists _, _; (split; [reflexivity|]); simpl;
        rewrite <- app_assoc; destruct (msg_id inbox_msg); repeat split; eauto.
  - destruct e; eexists _, _; (split; [reflexivity|]); simpl; repeat split; eauto.
Qed.

(** C6, as stated, fails: when the store refuses the insertion, the call
    makes no delivery attempt. *)
Lemma send_message_store_down_no_delivery :
  create_inbox_message svc_store_down [] "unknown" "rcv00001" "build is green"
    = Raise (RuntimeError "database is locked") /\
  send_message_to_agent svc_store_down sample_send initial_state
    = (Ok (SendMessageResponse.mk false None None (Some "rcv00001") None
             (Some "Failed to send message: database is locked")),
       mkState [EvCreateInboxMessage "unknown" "rcv00001" "build is green"] ∅).
Proof. split; reflexivity. Qed.

(** With the integer ids of the sample store, a message that was enqueued
    and whose delivery was attempted is still answered with a failure. *)
Lemma send_message_integer_id_reports_failure :
  exists error,
    send_message_to_agent svc_ok sample_send initial_state
      = (Ok (SendMessageResponse.mk false None None (Some "rcv00001") None (Some error)),
         mkState [EvCreateInboxMessage "unknown" "rcv00001" "build is green";
                  EvCheckAndSendPendingMessages "rcv00001"] ∅).
Proof. eexists. reflexivity. Qed.

(** ** Sender identity *)






(** An ambient id that is set but empty is not put back. *)
Lemma tool_send_message_drops_empty_ambient :
  environ (snd (http_server.send_message svc_ok "rcv00001" "build is green"
                  (Some "aaaa1111") (in_terminal ""))) = ∅.
Proof. reflexivity. Qed.

(** ** Inbox listing *)

(** Every [HTTPException] of the endpoint takes its code from an attribute
    of the query parameter, which has none: the endpoint never raises
    one. *)
Lemma inbox_endpoint_raises_no_http_exception svc terminal_id status limit s code detail :
  fst (get_inbox_messages_endpoint svc terminal_id status limit s)
    <> Raise (HTTPException code detail).
Proof.
  unfold get_inbox_messages_endpoint, try_except, bind, status_attribute,
    MessageStatus_of_value, call, ret, raise.
  simpl.
  repeat (run_goal; try discriminate).
Qed.

Lemma inbox_endpoint_never_400 svc terminal_id status limit s :
  http_status 200 (fst (get_inbox_messages_endpoint svc terminal_id status limit s)) <> 400.
Proof.
  pose proof (inbox_endpoint_raises_no_http_exception svc terminal_id status limit s) as H.
  destruct (fst _) as [a|e]; simpl; [discriminate|].
  destruct e; try discriminate. exfalso. eapply H. reflexivity.
Qed.

(** The limit is clamped into [1, 100] before the store is asked. *)
Lemma inbox_limit_clamped svc terminal_id status limit s :
  let clamped := Z.min (Z.max 1 limit) 100 in
  1 <= clamped <= 100 /\
  (1 <= limit <= 100 -> clamped = limit) /\
  exists r s2,
    get_inbox_messages_endpoint svc terminal_id status limit s = (r, s2) /\
    (trace s2 = trace s \/
     exists message_status,
       trace s2 = trace s ++ [EvGetInboxMessages terminal_id message_status clamped]).
Proof.
  simpl. split; [lia|]. split; [lia|].
  unfold get_inbox_messages_endpoint, try_except, bind, status_attribute,
    MessageStatus_of_value, call, ret, raise.
  simpl.
  repeat run_goal.
  all: eexists _, _; split; [reflexivity|]; simpl; eauto.
Qed.

(** C8, on the code: a request with an unknown status value is not
    answered with 400.  The handler's [HTTPException(400)] is never built,
    because [status] names the query parameter there; the
    [AttributeError] that results reaches the outer handler, which fails
    the same way, and leaves the endpoint as an unhandled exception. *)
Theorem inbox_unknown_status_unhandled svc s :
  get_inbox_messages_endpoint svc "abc12345" (Some "bogus") 10 s
    = (Raise (AttributeError
                "'str' object has no attribute 'HTTP_500_INTERNAL_SERVER_ERROR'"), s) /\
  http_status 200 (fst (get_inbox_messages_endpoint svc "abc12345" (Some "bogus") 10 s))
    = 500.
Proof. split; reflexivity. Qed.

Lemma inbox_limit_examples svc s :
  trace (snd (get_inbox_messages_endpoint svc "abc12345" None 150 s))
    = trace s ++ [EvGetInboxMessages "abc12345" None 100] /\
  trace (snd (get_inbox_messages_endpoint svc "abc12345" (Some "pending") 0 s))
    = trace s ++ [EvGetInboxMessages "abc12345" (Some PENDING) 1].
Proof.
  unfold get_inbox_messages_endpoint, try_except, bind, status_attribute, call, ret, raise.
  simpl. split; repeat run_goal; reflexivity.
Qed.

(** ** Flow daemon *)

Lemma execute_guarded_run svc flow s :
  execute_guarded svc flow s
    = (Ok tt, mkState (trace s ++ [EvExecuteFlow (name flow)]) (environ s)).
Proof.
  unfold execute_guarded, try_except, bind, call, ret. simpl.
  destruct (execute_flow svc (trace s) (name flow)); reflexivity.
Qed.

Lemma for_each_execute_guarded svc flows s :
  for_each flows (execute_guarded svc) s
    = (Ok tt, mkState (trace s ++ map (fun flow => EvExecuteFlow (name flow)) flows)
                      (environ s)).
Proof.
  revert s. induction flows as [|flow flows IH]; intros s; simpl.
  - rewrite app_nil_r. destruct s; reflexivity.
  - unfold bind. rewrite execute_guarded_run, IH. simpl.
    rewrite <- app_assoc. reflexivity.
Qed.

Lemma flow_daemon_tick_run svc s :
  flow_daemon_tick svc s
    = (Ok tt, mkState (trace s ++ tick_events svc (trace s)) (environ s)).
Proof.
  unfold flow_daemon_tick, tick_events, eligible, try_except, asyncio_sleep.
  unfold bind at 1 2. unfold call at 2. simpl.
  destruct (get_flows_to_run svc (trace s)) as [flows|e]; simpl.
  - rewrite for_each_execute_guarded. unfold call. simpl.
    rewrite <- !app_assoc. reflexivity.
  - unfold call, ret. simpl. rewrite <- !app_assoc. reflexivity.
Qed.

(** C9.  The daemon's loop never ends by itself: for every number of
    ticks, that many iterations complete without an exception leaving the
    loop.  Each tick asks for the eligible flows once, calls the execute
    step exactly once for each flow returned, in order, whether or not
    earlier executions raised, and then sleeps 60 seconds. *)
Theorem flow_daemon_runs svc ticks s :
  flow_daemon svc ticks s
    = (Ok tt, mkState (trace s ++ daemon_events svc ticks (trace s)) (environ s)).
Proof.
  revert s. induction ticks as [|n IH]; intros s; simpl.
  - rewrite app_nil_r. destruct s; reflexivity.
  - unfold bind. rewrite flow_daemon_tick_run, IH. simpl.
    rewrite <- app_assoc. reflexivity.
Qed.

(** A tick in which the second of three flows fails still executes the
    third, and the next tick runs. *)
Lemma flow_daemon_flaky_example :
  flow_daemon svc_flaky_flow 2 initial_state
    = (Ok tt,
       mkState [EvGetFlowsToRun; EvExecuteFlow "nightly"; EvExecuteFlow "hourly";
                EvExecuteFlow "weekly"; EvSleep 60;
                EvGetFlowsToRun; EvExecuteFlow "nightly"; EvExecuteFlow "hourly";
                EvExecuteFlow "weekly"; EvSleep 60] ∅) /\
  execute_flow svc_flaky_flow [EvGetFlowsToRun; EvExecuteFlow "nightly"] "hourly"
    = Raise (RuntimeError "flow failed").
Proof. split; reflexivity. Qed.

(** ** Sessions *)

(** The background initialisation makes one creation call, for a new
    session, with the provider, the profile and the session name it was
    given; it never lets an exception out. *)
Lemma initialize_session_background_run svc terminal_id session_name provider agent_profile s :
  exists s2 evs,
    _initialize_session_background svc terminal_id session_name provider agent_profile s
      = (Ok tt, s2) /\
    trace s2 = trace s ++ EvWaitFor 60
                 :: EvCreateTerminal provider agent_profile session_name true :: evs /\
    forallb not_create_terminal evs = true.
Proof.
  unfold _initialize_session_background, cleanup_session, try_except, wait_for, bind,
    call, ret, raise.
  simpl.
  repeat (run_goal; rewrite <- ?app_assoc; simpl).
  all: repeat match goal with u : unit |- _ => destruct u end.
  all: eexists _, _; split; [reflexivity|]; simpl.
  all: rewrite <- ?app_assoc; simpl.
  all: split; reflexivity.
Qed.

Lemma create_session_run svc provider agent_profile session_name s :
  exists response task s1 evs,
    create_session svc provider agent_profile session_name s = (Ok (response, task), s1) /\
    CreateSessionResponse.terminal_id response = generate_terminal_id svc (trace s) /\
    trace s1 = trace s ++ EvGenerateTerminalId :: evs /\
    forallb not_create_terminal evs = true /\
    forall other_id,
      task = _initialize_session_background svc other_id
               (CreateSessionResponse.session_name response) provider agent_profile.
Proof.
  unfold create_session, try_except, bind, call, ret. simpl.
  repeat (run_goal; rewrite <- ?app_assoc; simpl).
  all: eexists _, _, _, _; split; [reflexivity|]; simpl.
  all: rewrite <- ?app_assoc; simpl.
  all: split; [reflexivity|split; [reflexivity|split; reflexivity]].
Qed.

(** C10.  The terminal id in the answer of [POST /sessions] is generated
    first, before any terminal is created, and the background task that
    creates the terminal is the same whatever that id is: its one creation
    call takes the provider, the profile and the session name only.  So
    the id the terminal service gives the created terminal need not be the
    id that was returned; with the sample collaborators it is not. *)
Theorem create_session_terminal_id_unrelated :
  (forall svc provider agent_profile session_name s,
     exists response task s1 evs,
       create_session svc provider agent_profile session_name s
         = (Ok (response, task), s1) /\
       CreateSessionResponse.terminal_id response = generate_terminal_id svc (trace s) /\
       trace s1 = trace s ++ EvGenerateTerminalId :: evs /\
       forallb not_create_terminal evs = true /\
       (forall other_id,
          task = _initialize_session_background svc other_id
                   (CreateSessionResponse.session_name response) provider agent_profile) /\
       (forall s', exists s2 evs',
          task s' = (Ok tt, s2) /\
          trace s2 = trace s' ++ EvWaitFor 60
                       :: EvCreateTerminal provider agent_profile
                            (CreateSessionResponse.session_name response) true
                       :: evs' /\
          forallb not_create_terminal evs' = true)) /\
  (exists response s2 terminal,
     create_session_and_background svc_ok "kiro_cli" "developer" None initial_state
       = (Ok response, s2) /\
     trace s2 = [EvGenerateTerminalId; EvGenerateSessionName; EvWaitFor 60;
                 EvCreateTerminal "kiro_cli" "developer"
                   (CreateSessionResponse.session_name response) true] /\
     create_terminal svc_ok [EvGenerateTerminalId; EvGenerateSessionName; EvWaitFor 60]
       "kiro_cli" "developer" (CreateSessionResponse.session_name response) true
       = Ok terminal /\
     CreateSessionResponse.terminal_id response = "aaaa1111" /\
     id terminal = "bbbb2222").
Proof.
  split.
  - intros svc provider agent_profile session_name s.
    destruct (create_session_run svc provider agent_profile session_name s)
      as (response & task & s1 & evs & Hrun & Hid & Htr & Hevs & Htask).
    exists response, task, s1, evs. repeat split; try assumption.
    intros s'. rewrite (Htask "").
    apply initialize_session_background_run.
  - eexists _, _, _. repeat split.
Qed.

(** * Further properties of the handlers *)

(** ** Where a delegated terminal is created *)

(** Called from inside a terminal whose metadata is known,
    [_create_terminal_direct] creates the new terminal in the caller's own
    session, with the caller's provider, and returns the new id with that
    provider. *)
Theorem create_direct_joins_callers_session svc agent_profile s
    current metadata provider session_name terminal :
  environ s !! "TRON_TERMINAL_ID" = Some current ->
  truthy current = true ->
  get_terminal_metadata svc (trace s) current = Ok (Some metadata) ->
  metadata !! "provider" = Some provider ->
  metadata !! "tmux_session" = Some session_name ->
  create_terminal svc (trace s ++ [EvGetTerminalMetadata current])
                  provider agent_profile session_name false = Ok terminal ->
  _create_terminal_direct svc agent_profile s
    = (Ok (id terminal, provider),
       mkState (trace s ++ [EvGetTerminalMetadata current;
                            EvCreateTerminal provider agent_profile session_name false])
               (environ s)).
Proof.
  intros Henv Hcur Hmeta Hp Hs Hc.
  unfold _create_terminal_direct, bind, os_getenv, call, getitem, ret, raise.
  simpl. rewrite Henv. destruct current as [|c current]; [discriminate|].
  simpl. rewrite Hmeta. simpl.
  case_bool_decide as Hempty.
  { subst metadata. rewrite lookup_empty in Hp. discriminate. }
  rewrite Hp. simpl. rewrite Hs. simpl. rewrite Hc. simpl.
  rewrite <- app_assoc. reflexivity.
Qed.

Lemma create_direct_joins_callers_session_witness :
  _create_terminal_direct svc_ok "developer" (in_terminal "cccc3333")
    = (Ok (id (mkTerminal "bbbb2222" "q_cli" "tron-main" "developer"), "q_cli"),
       mkState ([] ++ [EvGetTerminalMetadata "cccc3333";
                       EvCreateTerminal "q_cli" "developer" "tron-main" false])
               (environ (in_terminal "cccc3333"))).
Proof.
  apply (create_direct_joins_callers_session svc_ok "developer" (in_terminal "cccc3333")
           "cccc3333" sample_metadata "q_cli" "tron-main"); reflexivity.
Defined.

(** When the caller's metadata is absent, empty, or lacks the provider or
    the session, [_create_terminal_direct] raises after the look-up and
    creates nothing. *)
Theorem create_direct_needs_metadata svc agent_profile s current metadata :
  environ s !! "TRON_TERMINAL_ID" = Some current ->
  truthy current = true ->
  get_terminal_metadata svc (trace s) current = Ok metadata ->
  metadata_usable metadata = false ->
  exists e,
    _create_terminal_direct svc agent_profile s
      = (Raise e, mkState (trace s ++ [EvGetTerminalMetadata current]) (environ s)) /\
    (metadata = None \/ metadata = Some ∅ ->
     e = ValueError ("Terminal metadata not found for " +:+ current)).
Proof.
  intros Henv Hcur Hmeta Hbad.
  unfold _create_terminal_direct, bind, os_getenv, call, getitem, ret, raise.
  simpl. rewrite Henv. destruct current as [|c current]; [discriminate|].
  simpl. rewrite Hmeta. simpl.
  destruct metadata as [d|]; simpl.
  - case_bool_decide as Hempty; simpl.
    + eexists. split; [reflexivity|]. reflexivity.
    + unfold metadata_usable in Hbad.
      destruct (d !! "provider") as [p|] eqn:Hp; simpl.
      * destruct (d !! "tmux_session") as [sn|] eqn:Hs; simpl.
        -- exfalso. rewrite !bool_decide_eq_true_2 in Hbad by eauto. discriminate.
        -- eexists. split; [reflexivity|]. intros [?|?]; congruence.
      * eexists. split; [reflexivity|]. intros [?|?]; congruence.
  - eexists. split; [reflexivity|]. reflexivity.
Qed.

Lemma create_direct_needs_metadata_witness :
  exists e,
    _create_terminal_direct svc_no_metadata "developer" (in_terminal "cccc3333")
      = (Raise e, mkState ([] ++ [EvGetTerminalMetadata "cccc3333"])
                          (environ (in_terminal "cccc3333"))) /\
    (@None (gmap string string) = None \/ @None (gmap string string) = Some ∅ ->
     e = ValueError ("Terminal metadata not found for " +:+ "cccc3333")).
Proof.
  apply (create_direct_needs_metadata svc_no_metadata "developer" (in_terminal "cccc3333")
           "cccc3333" None); reflexivity.
Defined.

(** Called with no ambient terminal id (unset or empty),
    [_create_terminal_direct] asks for a fresh session name and creates the
    terminal in a new session with the default provider. *)
Theorem create_direct_outside_terminal svc agent_profile s :
  truthy_opt (environ s !! "TRON_TERMINAL_ID") = false ->
  let session_name := generate_session_name svc (trace s) in
  _create_terminal_direct svc agent_profile s
    = (match create_terminal svc (trace s ++ [EvGenerateSessionName])
               (DEFAULT_PROVIDER svc) agent_profile session_name true with
       | Ok terminal => Ok (id terminal, DEFAULT_PROVIDER svc)
       | Raise e => Raise e
       end,
       mkState (trace s ++ [EvGenerateSessionName;
                            EvCreateTerminal (DEFAULT_PROVIDER svc) agent_profile
                              session_name true])
               (environ s)).
Proof.
  intros Henv. simpl.
  unfold _create_terminal_direct, bind, os_getenv, call, ret. simpl.
  destruct (environ s !! "TRON_TERMINAL_ID") as [[|c current]|]; try discriminate; simpl.
  all: destruct (create_terminal svc _ _ _ _ _); simpl; rewrite <- app_assoc; reflexivity.
Qed.

Lemma create_direct_outside_terminal_witness :
  _create_terminal_direct svc_ok "developer" (in_terminal "")
    = (Ok ("bbbb2222", "kiro_cli"),
       mkState [EvGenerateSessionName;
                EvCreateTerminal "kiro_cli" "developer" "tron-a1b2c3d4" true]
               (environ (in_terminal ""))).
Proof.
  apply (create_direct_outside_terminal svc_ok "developer" (in_terminal "")).
  reflexivity.
Defined.

(** ** Delegation calls always answer *)

(** [handoff_agent] never lets an exception out: every call returns a
    response, and the response carries a terminal id exactly when the
    bounded creation returned one. *)
Theorem handoff_always_answers svc request s :
  exists response s2,
    handoff_agent svc request s = (Ok response, s2) /\
    (is_Some (HandoffResponse.terminal_id response) <->
     exists terminal_id provider s1,
       created svc (HandoffRequest.agent_profile request) s terminal_id provider s1).
Proof.
  destruct (wait_for svc 30
              (_create_terminal_direct svc (HandoffRequest.agent_profile request)) s)
    as [[[terminal_id provider]|e] s1] eqn:Hc.
  - rewrite (handoff_agent_created _ _ _ _ _ _ Hc).
    destruct (handoff_after_create_outcome svc request terminal_id provider s1)
      as (response & s2 & Hrun & Hid & _).
    exists response, s2. split; [exact Hrun|]. rewrite Hid. split; eauto.
  - destruct (handoff_agent_not_created _ _ _ _ _ Hc) as (response & Hrun & _ & Hid).
    exists response, s1. split; [exact Hrun|]. rewrite Hid. split.
    + intros [x Hx]. discriminate.
    + intros (terminal_id & provider & s1' & Hc'). unfold created in Hc'. congruence.
Qed.

(** When the creation of the terminal takes longer than the 30-second
    bound, a handoff answers with the time-out message and no terminal id,
    although the creation job has run: its calls are in the log. *)
Theorem handoff_creation_timeout svc request s :
  30 < job_duration svc (trace s) ->
  handoff_agent svc request s
    = (Ok (HandoffResponse.mk false "Terminal creation timed out after 30 seconds"
             None None),
       snd (_create_terminal_direct svc (HandoffRequest.agent_profile request)
              (mkState (trace s ++ [EvWaitFor 30]) (environ s)))).
Proof.
  intros Hslow. unfold handoff_agent, try_except, bind, wait_for.
  destruct (_create_terminal_direct _ _ _) as [r s1]. simpl.
  destruct (Z.leb_spec (job_duration svc (trace s)) 30); [lia|]. reflexivity.
Qed.

Lemma handoff_creation_timeout_witness :
  handoff_agent svc_slow_creation sample_handoff initial_state
    = (Ok (HandoffResponse.mk false "Terminal creation timed out after 30 seconds"
             None None),
       snd (_create_terminal_direct svc_slow_creation "developer"
              (mkState ([] ++ [EvWaitFor 30]) ∅))).
Proof.
  apply (handoff_creation_timeout svc_slow_creation sample_handoff initial_state).
  reflexivity.
Defined.

(** The terminal of such a handoff exists all the same. *)
Lemma handoff_creation_timeout_orphan :
  trace (snd (handoff_agent svc_slow_creation sample_handoff initial_state))
    = [EvWaitFor 30; EvGenerateSessionName;
       EvCreateTerminal "kiro_cli" "developer" "tron-a1b2c3d4" true] /\
  create_terminal svc_slow_creation [EvWaitFor 30; EvGenerateSessionName]
    "kiro_cli" "developer" "tron-a1b2c3d4" true
    = Ok (mkTerminal "bbbb2222" "kiro_cli" "tron-a1b2c3d4" "developer").
Proof. split; reflexivity. Qed.

(** The same for an assign call: the time-out answer, no input injection,
    no terminal id. *)
Theorem assign_creation_timeout svc request s :
  30 < job_duration svc (trace s) ->
  assign_agent svc request s
    = (Ok (AssignResponse.mk false None
             "Assignment timed out after 30 seconds during terminal creation"),
       snd (_create_terminal_direct svc (AssignRequest.agent_profile request)
              (mkState (trace s ++ [EvWaitFor 30]) (environ s)))).
Proof.
  intros Hslow. unfold assign_agent, try_except, bind, wait_for.
  destruct (_create_terminal_direct _ _ _) as [r s1]. simpl.
  destruct (Z.leb_spec (job_duration svc (trace s)) 30); [lia|]. reflexivity.
Qed.

Lemma assign_creation_timeout_witness :
  assign_agent svc_slow_creation sample_assign initial_state
    = (Ok (AssignResponse.mk false None
             "Assignment timed out after 30 seconds during terminal creation"),
       snd (_create_terminal_direct svc_slow_creation "developer"
              (mkState ([] ++ [EvWaitFor 30]) ∅))).
Proof.
  apply (assign_creation_timeout svc_slow_creation sample_assign initial_state).
  reflexivity.
Defined.

(** ** Session creation *)

Lemma prefixed_startswith (chosen prefix : string) :
  startswith (if startswith chosen prefix then chosen else prefix +:+ chosen) prefix = true.
Proof.
  destruct (startswith chosen prefix) eqn:Hpre; [exact Hpre|apply startswith_app].
Qed.

(** The session name [create_session] answers with always carries the
    session prefix: a given non-empty name is kept when it has the prefix
    and prefixed otherwise; an absent or empty name is replaced by a
    generated one, treated the same way. *)
Theorem create_session_name_prefixed svc provider agent_profile session_name s :
  exists response task s1,
    create_session svc provider agent_profile session_name s = (Ok (response, task), s1) /\
    startswith (CreateSessionResponse.session_name response) SESSION_PREFIX = true /\
    CreateSessionResponse.session_name response =
      (let chosen :=
         if truthy_opt session_name then string_of session_name
         else generate_session_name svc (trace s ++ [EvGenerateTerminalId]) in
       if startswith chosen SESSION_PREFIX then chosen else SESSION_PREFIX +:+ chosen).
Proof.
  unfold create_session, try_except, bind, call, ret.
  generalize SESSION_PREFIX. intros prefix.
  destruct session_name as [[|c n]|]; simpl.
  all: eexists _, _, _; split; [reflexivity|]; simpl; split; [|reflexivity].
  all: apply prefixed_startswith.
Qed.

(** When the background creation of a session's terminal exceeds its
    60-second bound and the session exists, the session is killed. *)
Theorem background_timeout_kills_session svc terminal_id session_name provider
    agent_profile s :
  60 < job_duration svc (trace s) ->
  session_exists svc
    (trace s ++ [EvWaitFor 60; EvCreateTerminal provider agent_profile session_name true])
    session_name = Ok true ->
  exists s2,
    _initialize_session_background svc terminal_id session_name provider agent_profile s
      = (Ok tt, s2) /\
    trace s2 = trace s ++ [EvWaitFor 60;
                           EvCreateTerminal provider agent_profile session_name true;
                           EvSessionExists session_name;
                           EvKillSession session_name].
Proof.
  intros Hslow Hexists.
  unfold _initialize_session_background, cleanup_session, try_except, wait_for, bind,
    call, ret, raise.
  simpl.
  destruct (Z.leb_spec (job_duration svc (trace s)) 60); [lia|].
  simpl. rewrite <- !app_assoc. simpl. rewrite Hexists. simpl.
  rewrite <- !app_assoc. simpl.
  destruct (kill_session svc _ _) as [[]|e']; simpl.
  all: eexists; split; [reflexivity|]; simpl; rewrite <- ?app_assoc; reflexivity.
Qed.

Lemma background_timeout_kills_session_witness :
  exists s2,
    _initialize_session_background svc_very_slow_creation "aaaa1111" "tron-main"
      "kiro_cli" "developer" initial_state = (Ok tt, s2) /\
    trace s2 = [] ++ [EvWaitFor 60;
                      EvCreateTerminal "kiro_cli" "developer" "tron-main" true;
                      EvSessionExists "tron-main";
                      EvKillSession "tron-main"].
Proof.
  apply (background_timeout_kills_session svc_very_slow_creation "aaaa1111" "tron-main"
           "kiro_cli" "developer" initial_state); reflexivity.
Defined.

(** When the background creation returns within the bound, nothing is
    torn down: the creation is the only call. *)
Theorem background_success_keeps_session svc terminal_id session_name provider
    agent_profile s terminal :
  job_duration svc (trace s) <= 60 ->
  create_terminal svc (trace s ++ [EvWaitFor 60]) provider agent_profile session_name true
    = Ok terminal ->
  _initialize_session_background svc terminal_id session_name provider agent_profile s
    = (Ok tt,
       mkState (trace s ++ [EvWaitFor 60;
                            EvCreateTerminal provider agent_profile session_name true])
               (environ s)).
Proof.
  intros Hfast Hc.
  unfold _initialize_session_background, cleanup_session, try_except, wait_for, bind,
    call, ret, raise.
  simpl. rewrite Hc.
  destruct (Z.leb_spec (job_duration svc (trace s)) 60); [|lia].
  simpl. rewrite <- app_assoc. reflexivity.
Qed.

Lemma background_success_keeps_session_witness :
  _initialize_session_background svc_ok "aaaa1111" "tron-main" "kiro_cli" "developer"
    initial_state
    = (Ok tt,
       mkState ([] ++ [EvWaitFor 60;
                       EvCreateTerminal "kiro_cli" "developer" "tron-main" true]) ∅).
Proof.
  apply (background_success_keeps_session svc_ok "aaaa1111" "tron-main" "kiro_cli"
           "developer" initial_state
           (mkTerminal "bbbb2222" "kiro_cli" "tron-main" "developer"));
    [vm_compute; discriminate | reflexivity].
Defined.

(** ** Inbox listing: the working paths *)





(** Whatever goes wrong in the inbox listing, the exception that leaves
    the endpoint is an [AttributeError]: an error of the store, also its
    [ValueError] for an unknown terminal, is answered neither with 404 nor
    with the handler's own 500. *)
Theorem inbox_errors_are_attribute_errors svc terminal_id status limit s e :
  fst (get_inbox_messages_endpoint svc terminal_id status limit s) = Raise e ->
  exists msg, e = AttributeError msg.
Proof.
  unfold get_inbox_messages_endpoint, try_except, bind, status_attribute,
    MessageStatus_of_value, call, ret, raise.
  simpl.
  repeat run_goal.
  all: simpl; intros H; inversion H; eauto.
Qed.

Lemma inbox_errors_are_attribute_errors_witness :
  exists msg,
    AttributeError "'NoneType' object has no attribute 'HTTP_404_NOT_FOUND'"
      = AttributeError msg.
Proof.
  apply (inbox_errors_are_attribute_errors svc_no_metadata "abc12345" None 10
           initial_state).
  reflexivity.
Defined.

(** ** Terminal endpoints *)

(** For a terminal without a provider, [exit_terminal] answers 404 with
    the text that names the terminal and sends nothing to it. *)
Theorem exit_terminal_unknown_provider svc q terminal_id s :
  get_provider q (trace s) terminal_id = Ok None ->
  exit_terminal svc q terminal_id s
    = (Raise (HTTPException 404 ("Provider not found for terminal " +:+ terminal_id)), s).
Proof.
  intros Hp. unfold exit_terminal, http_errors, try_except, bind, ask, raise.
  rewrite Hp. reflexivity.
Qed.

Lemma exit_terminal_unknown_provider_witness :
  exit_terminal svc_ok queries_ok "bbbb2222" initial_state
    = (Raise (HTTPException 404 ("Provider not found for terminal " +:+ "bbbb2222")),
       initial_state).
Proof.
  apply (exit_terminal_unknown_provider svc_ok queries_ok "bbbb2222" initial_state).
  reflexivity.
Defined.

(** [exit_terminal] sends the provider's exit command to the terminal and
    answers success whenever the injection returns, also when the terminal
    service reports that the input was not sent. *)
Theorem exit_terminal_ignores_rejection svc q terminal_id s provider command sent :
  get_provider q (trace s) terminal_id = Ok (Some provider) ->
  exit_cli provider = Ok command ->
  send_input svc (trace s) terminal_id command = Ok sent ->
  exit_terminal svc q terminal_id s
    = (Ok true, mkState (trace s ++ [EvSendInput terminal_id command]) (environ s)).
Proof.
  intros Hp Hc Hs.
  unfold exit_terminal, http_errors, try_except, bind, ask, call, ret, raise.
  rewrite Hp, Hc. simpl. rewrite Hs. reflexivity.
Qed.

Lemma exit_terminal_ignores_rejection_witness :
  exit_terminal svc_input_rejected queries_ok "aaaa1111" initial_state
    = (Ok true, mkState ([] ++ [EvSendInput "aaaa1111" "/exit"]) ∅).
Proof.
  apply (exit_terminal_ignores_rejection svc_input_rejected queries_ok "aaaa1111"
           initial_state (mkProvider (Ok "/exit")) "/exit" false); reflexivity.
Defined.

(** An input the terminal service does not send (it answers False) is an
    error for the delegation helper [_send_direct_input_direct], which
    raises, and a plain answer for the endpoint [send_terminal_input],
    which returns [success = False]. *)
Theorem rejected_input_endpoint_and_helper svc terminal_id message s :
  send_input svc (trace s) terminal_id message = Ok false ->
  let s' := mkState (trace s ++ [EvSendInput terminal_id message]) (environ s) in
  send_terminal_input svc terminal_id message s = (Ok false, s') /\
  _send_direct_input_direct svc terminal_id message s
    = (Raise (ValueError ("Failed to send input to terminal " +:+ terminal_id)), s').
Proof.
  intros Hs. simpl.
  unfold send_terminal_input, _send_direct_input_direct, http_errors, try_except,
    bind, call, raise.
  rewrite Hs. split; reflexivity.
Qed.

Lemma rejected_input_endpoint_and_helper_witness :
  let s' := mkState ([] ++ [EvSendInput "aaaa1111" "ls"]) ∅ in
  send_terminal_input svc_input_rejected "aaaa1111" "ls" initial_state = (Ok false, s') /\
  _send_direct_input_direct svc_input_rejected "aaaa1111" "ls" initial_state
    = (Raise (ValueError ("Failed to send input to terminal " +:+ "aaaa1111")), s').
Proof.
  apply (rejected_input_endpoint_and_helper svc_input_rejected "aaaa1111" "ls"
           initial_state).
  reflexivity.
Defined.

(** ** The two ways to send a message *)

(** [POST /terminals/{id}/inbox/messages] and [POST /agents/send-message]
    with an explicit sender make the same calls.  Where the first answers
    with an HTTP error (404 for a [ValueError], 500 otherwise), the second
    answers with [success = False].  Where the first answers with the
    created message, the second answers success with the same metadata
    only if the message id is a string: with an integer id its response
    model refuses the id and it answers [success = False] for a message
    that the first reports as created. *)
Theorem inbox_endpoint_and_send_message svc receiver_id sender_id message s :
  truthy sender_id = true ->
  let request := SendMessageRequest.mk receiver_id message (Some sender_id) in
  snd (create_inbox_message_endpoint svc receiver_id sender_id message s)
    = snd (send_message_to_agent svc request s) /\
  match fst (create_inbox_message_endpoint svc receiver_id sender_id message s) with
  | Ok created =>
      InboxCreated.success created = true /\
      match InboxCreated.message_id created with
      | StrId id =>
          fst (send_message_to_agent svc request s)
            = Ok (SendMessageResponse.mk true (Some id)
                    (Some (InboxCreated.sender_id created))
                    (Some (InboxCreated.receiver_id created))
                    (Some (InboxCreated.created_at created)) None)
      | IntId _ =>
          exists error,
            fst (send_message_to_agent svc request s)
              = Ok (SendMessageResponse.mk false None None (Some receiver_id) None
                      (Some error))
      end
  | Raise e =>
      (exists detail, e = HTTPException 404 detail \/ e = HTTPException 500 detail) /\
      exists response,
        fst (send_message_to_agent svc request s) = Ok response /\
        SendMessageResponse.success response = false
  end.
Proof.
  intros Hsender. simpl.
  unfold create_inbox_message_endpoint, send_message_to_agent, new_SendMessageResponse,
    http_errors, try_except, bind, os_getenv, call, ret, raise.
  simpl.
  replace (resolve_sender (Some sender_id) (environ s !! "TRON_TERMINAL_ID"))
    with sender_id
    by (destruct sender_id; [discriminate|reflexivity]).
  destruct (create_inbox_message svc (trace s) sender_id receiver_id message)
    as [inbox_msg|e]; simpl.
  - destruct (check_and_send_pending_messages svc _ receiver_id) as [[]|e]; simpl.
    + destruct (msg_id inbox_msg) as [n|id]; simpl.
      * split; [reflexivity|]. split; [reflexivity|]. eexists. reflexivity.
      * split; [reflexivity|]. split; reflexivity.
    + destruct e; simpl; destruct (msg_id inbox_msg); simpl;
        (split; [reflexivity|]); split; eauto.
  - destruct e; simpl; (split; [reflexivity|]); split; eauto.
Qed.

Lemma inbox_endpoint_and_send_message_witness :
  let request := SendMessageRequest.mk "rcv00001" "build is green" (Some "aaaa1111") in
  snd (create_inbox_message_endpoint svc_ok "rcv00001" "aaaa1111"
         "build is green" initial_state)
    = snd (send_message_to_agent svc_ok request initial_state) /\
  match fst (create_inbox_message_endpoint svc_ok "rcv00001" "aaaa1111"
               "build is green" initial_state) with
  | Ok created =>
      InboxCreated.success created = true /\
      match InboxCreated.message_id created with
      | StrId id =>
          fst (send_message_to_agent svc_ok request initial_state)
            = Ok (SendMessageResponse.mk true (Some id)
                    (Some (InboxCreated.sender_id created))
                    (Some (InboxCreated.receiver_id created))
                    (Some (InboxCreated.created_at created)) None)
      | IntId _ =>
          exists error,
            fst (send_message_to_agent svc_ok request initial_state)
              = Ok (SendMessageResponse.mk false None None (Some "rcv00001") None
                      (Some error))
      end
  | Raise e =>
      (exists detail, e = HTTPException 404 detail \/ e = HTTPException 500 detail) /\
      exists response,
        fst (send_message_to_agent svc_ok request initial_state) = Ok response /\
        SendMessageResponse.success response = false
  end.
Proof.
  apply (inbox_endpoint_and_send_message svc_ok "rcv00001" "aaaa1111"
           "build is green" initial_state).
  reflexivity.
Defined.

(** On the sample store, whose ids are integers: the inbox endpoint
    reports the message as created, the send-message endpoint reports a
    failure. *)
Lemma inbox_endpoint_and_send_message_example :
  fst (create_inbox_message_endpoint svc_ok "rcv00001" "aaaa1111" "build is green"
         initial_state)
    = Ok (InboxCreated.mk true (IntId 1) "aaaa1111" "rcv00001" "2025-01-01T00:00:00") /\
  exists response,
    fst (send_message_to_agent svc_ok
           (SendMessageRequest.mk "rcv00001" "build is green" (Some "aaaa1111"))
           initial_state) = Ok response /\
    SendMessageResponse.success response = false.
Proof. split; [reflexivity|]. eexists. split; reflexivity. Qed.

(** ** Running the monad *)

Lemma bind_ok {A B} (m : M A) (k : A -> M B) s a s1 r :
  m s = (Ok a, s1) -> k a s1 = r -> bind m k s = r.
Proof. intros H <-. unfold bind. rewrite H. reflexivity. Qed.

Lemma bind_raise {A B} (m : M A) (k : A -> M B) s e s1 :
  m s = (Raise e, s1) -> bind m k s = (Raise e, s1).
Proof. intros H. unfold bind. rewrite H. reflexivity. Qed.

Lemma try_except_ok {A} (m : M A) (h : exn -> M A) s a s1 :
  m s = (Ok a, s1) -> try_except m h s = (Ok a, s1).
Proof. intros H. unfold try_except. rewrite H. reflexivity. Qed.

Lemma try_except_raise {A} (m : M A) (h : exn -> M A) s e s1 r :
  m s = (Raise e, s1) -> h e s1 = r -> try_except m h s = r.
Proof. intros H <-. unfold try_except. rewrite H. reflexivity. Qed.

(** ** Status of a session *)

(** For a session the multiplexer does not know, [get_session_status]
    answers "not found" after the one existence check. *)
Theorem session_status_not_found svc q session_name s :
  session_exists svc (trace s) session_name = Ok false ->
  get_session_status svc q session_name s
    = (Ok (SessionNotFound session_name),
       mkState (trace s ++ [EvSessionExists session_name]) (environ s)).
Proof.
  intros He. unfold get_session_status, try_except, bind, call, ret.
  rewrite He. reflexivity.
Qed.

Lemma terminal_status_entry_complete q row s :
  row_complete row = true ->
  terminal_status_entry q row s = (Ok (session_entry q (trace s) row), s).
Proof.
  unfold row_complete. rewrite !andb_true_iff, !bool_decide_eq_true.
  intros [[[tid Hid] [ap Hap]] [p Hp]].
  unfold terminal_status_entry, session_entry, reported_status, try_except, bind, ask,
    getitem, ret, raise.
  rewrite Hid, Hap, Hp. simpl.
  destruct (get_terminal q (trace s) tid) as [[[[v|e]]|]|e]; reflexivity.
Qed.

Lemma terminal_status_entry_incomplete q row s :
  row_complete row = false ->
  exists key, terminal_status_entry q row s = (Raise (KeyError key), s).
Proof.
  unfold row_complete. intros Hbad.
  unfold terminal_status_entry, try_except, bind, ask, getitem, ret, raise.
  destruct (row !! "id") as [tid|] eqn:Hid; simpl; [|eauto].
  destruct (row !! "agent_profile") as [ap|] eqn:Hap; simpl.
  - destruct (row !! "provider") as [p|] eqn:Hp; simpl.
    + exfalso. rewrite !bool_decide_eq_true_2 in Hbad by eauto. discriminate.
    + destruct (get_terminal q (trace s) tid) as [[[[v|e]]|]|e]; simpl; eauto.
  - destruct (get_terminal q (trace s) tid) as [[[[v|e]]|]|e]; simpl; eauto.
Qed.

Lemma session_status_loop q rows acc s :
  Forall (fun row => row_complete row = true) rows ->
  for_fold rows acc
    (fun terminal terminal_statuses =>
       let! entry := terminal_status_entry q terminal in
       ret (terminal_statuses ++ [entry])) s
    = (Ok (acc ++ map (session_entry q (trace s)) rows), s).
Proof.
  intros Hrows. revert acc.
  induction Hrows as [|row rows Hrow _ IH]; intros acc; simpl.
  - rewrite app_nil_r. reflexivity.
  - eapply bind_ok;
      [eapply bind_ok; [apply terminal_status_entry_complete, Hrow|reflexivity]|].
    rewrite IH, <- app_assoc. reflexivity.
Qed.

(** For an existing session whose rows are complete, [get_session_status]
    lists one entry per terminal, in the order of the listing, and the
    count of the terminals.  A terminal that cannot be inspected gets the
    status "error" with the error's text; the entries of the others are
    not affected. *)
Theorem session_status_lists_every_terminal svc q session_name rows s :
  session_exists svc (trace s) session_name = Ok true ->
  let s' := mkState (trace s ++ [EvSessionExists session_name]) (environ s) in
  list_terminals_by_session q (trace s') session_name = Ok rows ->
  Forall (fun row => row_complete row = true) rows ->
  get_session_status svc q session_name s
    = (Ok (SessionActive session_name (length rows)
             (map (session_entry q (trace s')) rows)), s').
Proof.
  intros He s' Hl Hrows.
  unfold get_session_status.
  apply try_except_ok.
  eapply bind_ok; [unfold call; rewrite He; reflexivity|].
  simpl negb. cbv iota. fold s'.
  eapply bind_ok; [unfold ask; rewrite Hl; reflexivity|].
  eapply bind_ok; [apply session_status_loop; exact Hrows|].
  reflexivity.
Qed.

Lemma session_status_lists_every_terminal_witness :
  get_session_status svc_ok queries_ok "tron-main" initial_state
    = (Ok (SessionActive "tron-main" 3
             [TerminalStatusEntry.mk "aaaa1111" "developer" "q_cli" "idle" None;
              TerminalStatusEntry.mk "bbbb2222" "developer" "q_cli" "error"
                (Some "pane is gone");
              TerminalStatusEntry.mk "cccc3333" "developer" "q_cli" "idle" None]),
       mkState [EvSessionExists "tron-main"] ∅).
Proof.
  apply (session_status_lists_every_terminal svc_ok queries_ok "tron-main" sample_rows
           initial_state); [reflexivity|reflexivity|].
  repeat constructor.
Defined.

Lemma session_status_loop_incomplete q rows acc s :
  Exists (fun row => row_complete row = false) rows ->
  exists key,
    for_fold rows acc
      (fun terminal terminal_statuses =>
         let! entry := terminal_status_entry q terminal in
         ret (terminal_statuses ++ [entry])) s
      = (Raise (KeyError key), s).
Proof.
  revert acc. induction rows as [|row rows IH]; intros acc Hbad.
  - inversion Hbad.
  - simpl. destruct (row_complete row) eqn:Hrow.
    + assert (Hrest : Exists (fun row => row_complete row = false) rows)
        by (inversion Hbad as [? ? H|? ? H]; subst; [congruence|exact H]).
      destruct (IH (acc ++ [session_entry q (trace s) row]) Hrest) as [key Hkey].
      exists key.
      eapply bind_ok;
        [eapply bind_ok; [apply terminal_status_entry_complete, Hrow|reflexivity]|].
      exact Hkey.
    + destruct (terminal_status_entry_incomplete q row s Hrow) as [key Hkey].
      exists key. apply bind_raise. apply bind_raise. exact Hkey.
Qed.

(** One row that lacks its id, agent profile or provider fails the whole
    request: [get_session_status] answers 500 and lists no terminal. *)
Theorem session_status_incomplete_row svc q session_name rows s :
  session_exists svc (trace s) session_name = Ok true ->
  let s' := mkState (trace s ++ [EvSessionExists session_name]) (environ s) in
  list_terminals_by_session q (trace s') session_name = Ok rows ->
  Exists (fun row => row_complete row = false) rows ->
  exists key,
    get_session_status svc q session_name s
      = (Raise (HTTPException 500
                  ("Failed to get session status: " +:+ str (KeyError key))), s').
Proof.
  intros He s' Hl Hbad.
  destruct (session_status_loop_incomplete q rows [] s' Hbad) as [key Hkey].
  exists key.
  unfold get_session_status.
  eapply try_except_raise; [|reflexivity].
  eapply bind_ok; [unfold call; rewrite He; reflexivity|].
  simpl negb. cbv iota. fold s'.
  eapply bind_ok; [unfold ask; rewrite Hl; reflexivity|].
  apply bind_raise. exact Hkey.
Qed.

Lemma session_status_not_found_witness :
  get_session_status svc_no_session queries_ok "tron-main" initial_state
    = (Ok (SessionNotFound "tron-main"),
       mkState ([] ++ [EvSessionExists "tron-main"]) ∅).
Proof.
  apply (session_status_not_found svc_no_session queries_ok "tron-main" initial_state).
  reflexivity.
Defined.

Lemma session_status_incomplete_row_witness :
  exists key,
    get_session_status svc_ok queries_broken "tron-main" initial_state
      = (Raise (HTTPException 500
                  ("Failed to get session status: " +:+ str (KeyError key))),
         mkState ([] ++ [EvSessionExists "tron-main"]) ∅).
Proof.
  apply (session_status_incomplete_row svc_ok queries_broken "tron-main"
           [sample_row "aaaa1111" "tron-main"; broken_row] initial_state);
    [reflexivity|reflexivity|].
  apply Exists_cons_tl, Exists_cons_hd. reflexivity.
Defined.

(** ** Status of all agents *)

Lemma agent_status_step_run q row (sessions : gmap string (list (gmap string string))) s :
  agent_status_step q row sessions s
    = (Ok (alter (fun group => group ++ [with_status q (trace s) row]) (session_of row)
             (if bool_decide (is_Some (sessions !! session_of row)) then sessions
              else <[session_of row := []]> sessions)), s).
Proof.
  unfold agent_status_step, with_status, agents_status_of, session_of, try_except,
    bind, ask, getitem, ret, raise.
  destruct (row !! "id") as [tid|]; simpl; [|reflexivity].
  destruct (get_terminal q (trace s) tid) as [[[[v|e]]|]|e]; reflexivity.
Qed.

Lemma agent_status_step_lookup q h row
    (sessions : gmap string (list (gmap string string))) session_name :
  alter (fun group => group ++ [with_status q h row]) (session_of row)
    (if bool_decide (is_Some (sessions !! session_of row)) then sessions
     else <[session_of row := []]> sessions) !! session_name
  = if String.eqb (session_of row) session_name
    then Some (default [] (sessions !! session_name) ++ [with_status q h row])
    else sessions !! session_name.
Proof.
  destruct (String.eqb_spec (session_of row) session_name) as [<-|Hne].
  - rewrite lookup_alter_eq. case_bool_decide as Hin.
    + destruct Hin as [group Hgroup]. rewrite Hgroup. reflexivity.
    + rewrite lookup_insert_eq.
      destruct (sessions !! session_of row) eqn:Hl; [exfalso; eauto|reflexivity].
  - rewrite lookup_alter_ne by exact Hne. case_bool_decide; [reflexivity|].
    rewrite lookup_insert_ne by exact Hne. reflexivity.
Qed.

Lemma agents_status_loop q rows (sessions : gmap string (list (gmap string string))) s :
  exists result,
    for_fold rows sessions (agent_status_step q) s = (Ok result, s) /\
    forall session_name,
      result !! session_name
        = merge_group (sessions !! session_name) (group_of q (trace s) session_name rows).
Proof.
  revert sessions. induction rows as [|row rows IH]; intros sessions.
  - exists sessions. split; [reflexivity|]. intros session_name.
    unfold merge_group, group_of. simpl.
    destruct (sessions !! session_name); simpl; [rewrite app_nil_r|]; reflexivity.
  - destruct (IH (alter (fun group => group ++ [with_status q (trace s) row])
                    (session_of row)
                    (if bool_decide (is_Some (sessions !! session_of row)) then sessions
                     else <[session_of row := []]> sessions)))
      as (result & Hrun & Hgroups).
    exists result. split.
    + simpl. eapply bind_ok; [apply agent_status_step_run|exact Hrun].
    + intros session_name. rewrite Hgroups, agent_status_step_lookup.
      unfold group_of. simpl.
      destruct (String.eqb (session_of row) session_name); simpl.
      * unfold merge_group.
        destruct (sessions !! session_name) as [group|]; simpl;
          rewrite <- ?app_assoc; simpl;
          destruct (map _ _); reflexivity.
      * reflexivity.
Qed.

(** [get_agents_status] groups the listed terminals by session: the group
    of a session holds exactly the rows of that session (rows without a
    session under "unknown"), in the order of the listing, each with its
    status ("unknown" when the terminal cannot be inspected); a session
    without rows has no group; the total is the number of rows. *)
Theorem agents_status_groups_by_session q rows s :
  list_all_terminals q (trace s) = Ok rows ->
  exists result,
    get_agents_status q s = (Ok result, s) /\
    AgentsStatus.total_terminals result = length rows /\
    forall session_name,
      AgentsStatus.sessions result !! session_name
        = match group_of q (trace s) session_name rows with
          | [] => None
          | group => Some group
          end.
Proof.
  intros Hl.
  destruct (agents_status_loop q rows ∅ s) as (sessions & Hrun & Hgroups).
  exists (AgentsStatus.mk (length rows) sessions (time_time q (trace s))).
  split; [|split; [reflexivity|]].
  - unfold get_agents_status. apply try_except_ok.
    eapply bind_ok; [unfold ask; rewrite Hl; reflexivity|].
    eapply bind_ok; [exact Hrun|]. reflexivity.
  - intros session_name. simpl. rewrite Hgroups, lookup_empty.
    unfold merge_group. destruct (group_of _ _ _ _); reflexivity.
Qed.

Lemma agents_status_groups_by_session_witness :
  exists result,
    get_agents_status queries_ok initial_state = (Ok result, initial_state) /\
    AgentsStatus.total_terminals result = length sample_rows /\
    forall session_name,
      AgentsStatus.sessions result !! session_name
        = match group_of queries_ok [] session_name sample_rows with
          | [] => None
          | group => Some group
          end.
Proof.
  apply (agents_status_groups_by_session queries_ok sample_rows initial_state).
  reflexivity.
Defined.

(** The groups of the sample listing. *)
Lemma agents_status_example :
  group_of queries_ok [] "tron-main" sample_rows
    = [<["status" := "idle"]> (sample_row "aaaa1111" "tron-main");
       <["status" := "idle"]> (sample_row "cccc3333" "tron-main")] /\
  group_of queries_ok [] "tron-side" sample_rows
    = [<["status" := "unknown"]> (sample_row "bbbb2222" "tron-side")] /\
  group_of queries_ok [] "tron-none" sample_rows = [].
Proof. repeat split. Qed.

(** ** Health *)

(** The detailed health check answers with status "ok" whenever the log
    directory can be inspected: a failing database check and a failing
    session listing are reported as error texts in the components and do
    not change the status or the answer's code. *)
Theorem health_ok_despite_component_failures q s present :
  log_dir_exists q (trace s) = Ok present ->
  exists health,
    detailed_health_check q s = (Ok health, s) /\
    DetailedHealth.status health = "ok" /\
    DetailedHealth.database health
      = match database_select_1 q (trace s) with
        | Ok _ => "ok"
        | Raise e => "error: " +:+ str e
        end /\
    DetailedHealth.sessions health
      = match list_sessions q (trace s) with
        | Ok sessions => inl (length sessions)
        | Raise e => inr ("error: " +:+ str e)
        end /\
    DetailedHealth.log_directory health = present.
Proof.
  intros Hdir.
  unfold detailed_health_check, try_except, bind, ask, observe, ret.
  destruct (database_select_1 q (trace s)) as [[]|e1];
    destruct (list_sessions q (trace s)) as [sessions|e2]; simpl;
    rewrite Hdir; simpl; eexists; (split; [reflexivity|]); simpl; auto.
Qed.

Lemma health_ok_despite_component_failures_witness :
  exists health,
    detailed_health_check queries_ok initial_state = (Ok health, initial_state) /\
    DetailedHealth.status health = "ok" /\
    DetailedHealth.database health
      = match database_select_1 queries_ok [] with
        | Ok _ => "ok"
        | Raise e => "error: " +:+ str e
        end /\
    DetailedHealth.sessions health
      = match list_sessions queries_ok [] with
        | Ok sessions => inl (length sessions)
        | Raise e => inr ("error: " +:+ str e)
        end /\
    DetailedHealth.log_directory health = true.
Proof.
  apply (health_ok_despite_component_failures queries_ok initial_state true).
  reflexivity.
Defined.

(** ** The handoff and assign tools *)

(** The handoff client checks its arguments before it contacts the server:
    with an empty profile or message, or a timeout outside 1..3600, it
    returns a failure that carries the validation text and makes no HTTP
    request. *)
Theorem client_handoff_rejects_invalid q agent_profile message handoff_timeout s :
  handoff_arguments_valid agent_profile message handoff_timeout = false ->
  agent_client.handoff q agent_profile message handoff_timeout s
    = (Ok (HandoffResult.mk false ("Handoff failed: " +:+ validation_error q (trace s))
             None None), s).
Proof.
  unfold handoff_arguments_valid. intros Hbad.
  unfold agent_client.handoff, agent_client.new_HandoffRequest, try_except, bind,
    observe, raise.
  rewrite Hbad. reflexivity.
Qed.

Lemma client_handoff_rejects_invalid_witness :
  agent_client.handoff queries_ok "developer" "fix the build" 7200 initial_state
    = (Ok (HandoffResult.mk false
             ("Handoff failed: " +:+ validation_error queries_ok []) None None),
       initial_state).
Proof.
  apply (client_handoff_rejects_invalid queries_ok "developer" "fix the build" 7200
           initial_state).
  reflexivity.
Defined.

(** With valid arguments the handoff client makes exactly one POST to
    [/agents/handoff], always with the client's own HTTP timeout of 30
    seconds, whatever the handoff timeout in the body.  It returns the
    server's reply field by field, and turns a failure of the request into
    a failure result; it never raises. *)
Theorem client_handoff_posts_once q agent_profile message handoff_timeout s :
  handoff_arguments_valid agent_profile message handoff_timeout = true ->
  let request := HandoffRequest.mk agent_profile message handoff_timeout in
  agent_client.handoff q agent_profile message handoff_timeout s
    = (Ok match post_handoff q (trace s) request with
          | Ok reply =>
              HandoffResult.mk (HandoffResponse.success reply)
                (HandoffResponse.message reply) (HandoffResponse.output reply)
                (HandoffResponse.terminal_id reply)
          | Raise (HTTPError text) =>
              HandoffResult.mk false ("Handoff failed: HTTP error - " +:+ text) None None
          | Raise e =>
              HandoffResult.mk false ("Handoff failed: " +:+ str e) None None
          end,
       mkState (trace s
                  ++ [EvRequestsPost "http://localhost:9889/agents/handoff"
                        [("agent_profile", agent_profile); ("message", message);
                         ("timeout", pretty handoff_timeout)] 30])
               (environ s)).
Proof.
  unfold handoff_arguments_valid. intros Hok. simpl.
  unfold agent_client.handoff, agent_client.new_HandoffRequest, try_except, bind,
    call, ret.
  rewrite Hok. simpl.
  destruct (post_handoff q (trace s) _) as [reply|e]; [reflexivity|].
  destruct e; reflexivity.
Qed.

Lemma client_handoff_posts_once_witness :
  let request := HandoffRequest.mk "developer" "fix the build" 3600 in
  agent_client.handoff queries_broken "developer" "fix the build" 3600 initial_state
    = (Ok match post_handoff queries_broken [] request with
          | Ok reply =>
              HandoffResult.mk (HandoffResponse.success reply)
                (HandoffResponse.message reply) (HandoffResponse.output reply)
                (HandoffResponse.terminal_id reply)
          | Raise (HTTPError text) =>
              HandoffResult.mk false ("Handoff failed: HTTP error - " +:+ text) None None
          | Raise e =>
              HandoffResult.mk false ("Handoff failed: " +:+ str e) None None
          end,
       mkState ([] ++ [EvRequestsPost "http://localhost:9889/agents/handoff"
                         [("agent_profile", "developer"); ("message", "fix the build");
                          ("timeout", pretty 3600)] 30])
               ∅).
Proof.
  apply (client_handoff_posts_once queries_broken "developer" "fix the build" 3600
           initial_state).
  reflexivity.
Defined.

(** The assign client does the same: with an empty profile or message it
    makes no HTTP request; otherwise it makes exactly one POST to
    [/agents/assign] and returns the reply, or a failure result when the
    request fails. *)
Theorem client_assign_validates_then_posts q agent_profile message s :
  agent_client.assign q agent_profile message s
    = if truthy agent_profile && truthy message
      then (Ok match post_assign q (trace s) (AssignRequest.mk agent_profile message) with
               | Ok reply => reply
               | Raise (HTTPError text) =>
                   AssignResponse.mk false None
                     ("Assignment failed: HTTP error - " +:+ text)
               | Raise e =>
                   AssignResponse.mk false None ("Assignment failed: " +:+ str e)
               end,
            mkState (trace s
                       ++ [EvRequestsPost "http://localhost:9889/agents/assign"
                             [("agent_profile", agent_profile); ("message", message)] 30])
                    (environ s))
      else (Ok (AssignResponse.mk false None
                  ("Assignment failed: " +:+ validation_error q (trace s))), s).
Proof.
  unfold agent_client.assign, agent_client.new_AssignRequest, try_except, bind,
    call, observe, ret, raise.
  destruct (truthy agent_profile && truthy message); simpl; [|reflexivity].
  destruct (post_assign q (trace s) _) as [[]|e]; [reflexivity|].
  destruct e; reflexivity.
Qed.

Lemma client_handoff_answers q agent_profile message handoff_timeout s :
  exists result s2,
    agent_client.handoff q agent_profile message handoff_timeout s = (Ok result, s2).
Proof.
  unfold agent_client.handoff, agent_client.new_HandoffRequest, try_except, bind,
    call, observe, ret, raise.
  repeat run_goal; eauto.
Qed.

Lemma client_assign_answers q agent_profile message s :
  exists result s2, agent_client.assign q agent_profile message s = (Ok result, s2).
Proof.
  unfold agent_client.assign, agent_client.new_AssignRequest, try_except, bind,
    call, observe, ret, raise.
  repeat run_goal; eauto.
Qed.

(** The synchronous tool wrappers stand or fall with [asyncio.run].
    Called from synchronous code they return exactly what the client
    returns, in the same state: the client never raises, so their own
    [except] branch is not taken.  Called while an event loop is running,
    as from [main] of the same file, [asyncio.run] raises, the client is
    never started, no request is made, and they return the failure of
    their own [except] branch. *)
Theorem tool_wrappers_depend_on_running_loop q agent_profile message handoff_timeout s :
  (exists result s2,
     agent_client.handoff q agent_profile message handoff_timeout s = (Ok result, s2) /\
     http_server_tools.handoff q false agent_profile message handoff_timeout s
       = (Ok result, s2)) /\
  (exists result s2,
     agent_client.assign q agent_profile message s = (Ok result, s2) /\
     http_server_tools.assign q false agent_profile message s = (Ok result, s2)) /\
  http_server_tools.handoff q true agent_profile message handoff_timeout s
    = (Ok (HandoffResult.mk false
             "Handoff failed: asyncio.run() cannot be called from a running event loop"
             None None), s) /\
  http_server_tools.assign q true agent_profile message s
    = (Ok (AssignResponse.mk false None
             "Assignment failed: asyncio.run() cannot be called from a running event loop"),
       s).
Proof.
  split; [|split; [|split; reflexivity]].
  - destruct (client_handoff_answers q agent_profile message handoff_timeout s)
      as (result & s2 & Hrun).
    exists result, s2. split; [exact Hrun|].
    unfold http_server_tools.handoff, http_server_tools.asyncio_run.
    apply try_except_ok.
    eapply bind_ok; [exact Hrun|]. destruct result; reflexivity.
  - destruct (client_assign_answers q agent_profile message s) as (result & s2 & Hrun).
    exists result, s2. split; [exact Hrun|].
    unfold http_server_tools.assign, http_server_tools.asyncio_run.
    apply try_except_ok. exact Hrun.
Qed.

(** ** All messages *)

Lemma string_take_length (n : nat) (s : string) :
  String.length (string_take n s) = Nat.min n (String.length s).
Proof.
  revert s. induction n as [|n IH]; intros [|c s]; simpl; try reflexivity.
  rewrite IH. reflexivity.
Qed.

Lemma append_length (a b : string) :
  String.length (a +:+ b) = (String.length a + String.length b)%nat.
Proof.
  induction a as [|c a IH]; [reflexivity|].
  rewrite append_cons. simpl. rewrite IH. reflexivity.
Qed.

Lemma string_take_prefix (n : nat) (s : string) :
  startswith s (string_take n s) = true.
Proof.
  revert s. induction n as [|n IH]; intros [|c s]; simpl; try reflexivity.
  rewrite Ascii.eqb_refl. apply IH.
Qed.

(** The text shown for a message is the message itself when it has at most
    100 characters, and otherwise its first 100 characters followed by
    three dots: never longer than 103 characters, and always starting with
    the first characters of the message. *)
Theorem message_preview_bounded (message : string) :
  (String.length (message_preview message) <= 103)%nat /\
  ((String.length message <= 100)%nat -> message_preview message = message) /\
  ((100 < String.length message)%nat ->
   String.length (message_preview message) = 103%nat /\
   message_preview message = string_take 100 message +:+ "..." /\
   startswith message (string_take 100 message) = true).
Proof.
  unfold message_preview.
  destruct (Nat.ltb_spec 100 (String.length message)) as [Hlong|Hshort].
  - assert (Hlen : String.length (string_take 100 message +:+ "...") = 103%nat).
    { rewrite append_length, string_take_length. simpl String.length. lia. }
    split; [lia|]. split; [lia|]. intros _.
    split; [exact Hlen|]. split; [reflexivity|apply string_take_prefix].
  - split; [lia|]. split; [reflexivity|lia].
Qed.

Lemma message_preview_bounded_witness :
  (String.length (message_preview "build is green") <= 103)%nat /\
  ((String.length "build is green" <= 100)%nat ->
   message_preview "build is green" = "build is green") /\
  ((100 < String.length "build is green")%nat ->
   String.length (message_preview "build is green") = 103%nat /\
   message_preview "build is green" = string_take 100 "build is green" +:+ "..." /\
   startswith "build is green" (string_take 100 "build is green") = true).
Proof. exact (message_preview_bounded "build is green"). Defined.

Lemma by_receiver_step_lookup msg (by_receiver : gmap string (list MessagePreview.t))
    receiver_id :
  by_receiver_step msg by_receiver !! receiver_id
  = if String.eqb (msg_receiver_id msg) receiver_id
    then Some (default [] (by_receiver !! receiver_id) ++ [preview_of msg])
    else by_receiver !! receiver_id.
Proof.
  unfold by_receiver_step.
  destruct (String.eqb_spec (msg_receiver_id msg) receiver_id) as [<-|Hne].
  - rewrite lookup_alter_eq. case_bool_decide as Hin.
    + destruct Hin as [group Hgroup]. rewrite Hgroup. reflexivity.
    + rewrite lookup_insert_eq.
      destruct (by_receiver !! msg_receiver_id msg) eqn:Hl; [exfalso; eauto|reflexivity].
  - rewrite lookup_alter_ne by exact Hne. case_bool_decide; [reflexivity|].
    rewrite lookup_insert_ne by exact Hne. reflexivity.
Qed.

Lemma by_receiver_loop messages (by_receiver : gmap string (list MessagePreview.t)) s :
  exists result,
    for_fold messages by_receiver
      (fun msg by_receiver => ret (by_receiver_step msg by_receiver)) s
      = (Ok result, s) /\
    forall receiver_id,
      result !! receiver_id
        = match by_receiver !! receiver_id, inbox_of receiver_id messages with
          | None, [] => None
          | collected, group => Some (default [] collected ++ group)
          end.
Proof.
  revert by_receiver. induction messages as [|msg messages IH]; intros by_receiver.
  - exists by_receiver. split; [reflexivity|]. intros receiver_id.
    unfold inbox_of. simpl.
    destruct (by_receiver !! receiver_id); simpl; [rewrite app_nil_r|]; reflexivity.
  - destruct (IH (by_receiver_step msg by_receiver)) as (result & Hrun & Hgroups).
    exists result. split.
    + simpl. eapply bind_ok; [reflexivity|exact Hrun].
    + intros receiver_id. rewrite Hgroups, by_receiver_step_lookup.
      unfold inbox_of. simpl.
      destruct (String.eqb (msg_receiver_id msg) receiver_id); simpl.
      * destruct (by_receiver !! receiver_id) as [group|]; simpl;
          rewrite <- ?app_assoc; simpl;
          destruct (map _ _); reflexivity.
      * reflexivity.
Qed.

(** [get_all_messages] lists every message of the inbox table under its
    receiver, in the order of the table, with its text shortened as above;
    a receiver without messages has no entry, and the total is the number
    of messages in the table. *)
Theorem all_messages_grouped_by_receiver q messages s :
  all_inbox_messages q (trace s) = Ok messages ->
  exists result,
    get_all_messages q s = (Ok result, s) /\
    AllMessages.total_messages result = length messages /\
    forall receiver_id,
      AllMessages.by_receiver result !! receiver_id
        = match inbox_of receiver_id messages with
          | [] => None
          | group => Some group
          end.
Proof.
  intros Hl.
  destruct (by_receiver_loop messages ∅ s) as (by_receiver & Hrun & Hgroups).
  exists (AllMessages.mk (length messages) by_receiver (time_time q (trace s))).
  split; [|split; [reflexivity|]].
  - unfold get_all_messages. apply try_except_ok.
    eapply bind_ok; [unfold ask; rewrite Hl; reflexivity|].
    eapply bind_ok; [exact Hrun|]. reflexivity.
  - intros receiver_id. simpl. rewrite Hgroups, lookup_empty.
    destruct (inbox_of _ _); reflexivity.
Qed.

Lemma all_messages_grouped_by_receiver_witness :
  exists result,
    get_all_messages queries_ok initial_state = (Ok result, initial_state) /\
    AllMessages.total_messages result = length sample_inbox_table /\
    forall receiver_id,
      AllMessages.by_receiver result !! receiver_id
        = match inbox_of receiver_id sample_inbox_table with
          | [] => None
          | group => Some group
          end.
Proof.
  apply (all_messages_grouped_by_receiver queries_ok sample_inbox_table initial_state).
  reflexivity.
Defined.
